(** * ALTMAN questionnaire: the form's summary and the storage layer

    A shallow embedding of the Python sources

      - [ui/main_window.py]            (the form: sliders, summary, close event)
      - [database/database_manager.py] (bootstrap, schema, insertion, close)

    Python [int] is [Z], [str] is [string], a file is a list of bytes, the
    database behind a connection is a finite map from table names to tables.
    Python code that logs and catches exceptions runs in the monad [py]
    below: a state, a result or an exception, and the log entries written. *)

From Stdlib Require Import ZArith Ascii String List Lia.
From stdpp Require Import base decidable option list gmap strings pretty.

Local Open Scope Z_scope.
Local Open Scope string_scope.

(** ** Python effects: state, exceptions, logging *)

(** The exception classes the sources name or meet; each one is a subclass
    of Python's [Exception]. *)
Inductive exn : Type :=
| ValueError (msg : string)
| OSError (msg : string)
| RuntimeError (msg : string).

Definition str (e : exn) : string :=
  match e with
  | ValueError msg | OSError msg | RuntimeError msg => msg
  end.

Inductive level : Type := ERROR | INFO.

Record log_entry : Type := Log { log_level : level; log_text : string }.

Inductive outcome (A : Type) : Type :=
| Returned (a : A)
| Raised (e : exn).
Arguments Returned {A} a.
Arguments Raised {A} e.

(** What a call leaves behind: how it ended, the state, what it logged. *)
Record run (S A : Type) : Type := Run {
  out : outcome A;
  st : S;
  logged : list log_entry
}.
Arguments Run {S A} out st logged.
Arguments out {S A} r.
Arguments st {S A} r.
Arguments logged {S A} r.

Definition py (S A : Type) : Type := S -> run S A.

Section PyMonad.
Context {S : Type}.

Definition py_ret {A} (a : A) : py S A := fun s => Run (Returned a) s [].

Definition py_bind {A B} (m : py S A) (f : A -> py S B) : py S B :=
  fun s =>
    let r := m s in
    match out r with
    | Returned a =>
        let r' := f a (st r) in
        Run (out r') (st r') (logged r ++ logged r')
    | Raised e => Run (Raised e) (st r) (logged r)
    end.

Definition raise {A} (e : exn) : py S A := fun s => Run (Raised e) s [].

Definition get : py S S := fun s => Run (Returned s) s [].

Definition modify (f : S -> S) : py S unit := fun s => Run (Returned tt) (f s) [].

(** Modelled from the spec: [logger] comes from [logger_setup], which is not
    among the sources; a failure is "converted to a log entry", so a call of
    [logger.error], [logger.exception] or [logger.info] writes one entry
    with its message. *)
Definition logger_error (text : string) : py S unit :=
  fun s => Run (Returned tt) s [Log ERROR text].

Definition logger_info (text : string) : py S unit :=
  fun s => Run (Returned tt) s [Log INFO text].

(** [try: body  except ... as e: handler e].  The state the body reached
    and what it logged stay; the handler runs from there. *)
Definition try_except {A} (body : py S A) (handler : exn -> py S A) : py S A :=
  fun s =>
    let r := body s in
    match out r with
    | Returned a => r
    | Raised e =>
        let r' := handler e (st r) in
        Run (out r') (st r') (logged r ++ logged r')
    end.

(** [for x in xs: body x]. *)
Fixpoint for_each {A} (xs : list A) (body : A -> py S unit) : py S unit :=
  match xs with
  | [] => py_ret tt
  | x :: xs' => py_bind (body x) (fun _ => for_each xs' body)
  end.

End PyMonad.

Declare Scope py_scope.
Delimit Scope py_scope with py.
Bind Scope py_scope with py.
Notation "x <- m ;; k" := (py_bind m (fun x => k))
  (at level 100, m at next level, k at level 200, right associativity) : py_scope.
Notation "m ;; k" := (py_bind m (fun _ => k))
  (at level 100, k at level 200, right associativity) : py_scope.
Local Open Scope py_scope.

(** Running a computation on one component of a larger state. *)
Definition zoom {S T A} (read : T -> S) (write : S -> T -> T) (m : py S A) : py T A :=
  fun t => let r := m (read t) in Run (out r) (write (st r) t) (logged r).

(** Python's [sum]: a left fold from 0. *)
Definition py_sum (l : list Z) : Z := fold_left Z.add l 0.

(** [s.count(c)] for a one-character [c]. *)
Fixpoint count (c : ascii) (s : string) : nat :=
  match s with
  | EmptyString => 0%nat
  | String a s' => ((if decide (a = c) then 1 else 0) + count c s')%nat
  end.

(** ** SQL as the SQLite driver reads it *)

Module Sql.

(** Stored values.  Integers are unbounded, as Python's are: the 64-bit
    limit of SQLite is modelled for the keys it generates only. *)
Inductive value : Type :=
| Null
| Integer (z : Z)
| Text (s : string).

Inductive affinity : Type := TEXT | INTEGER.

(** A column definition; [col_autoincrement] marks
    [INTEGER PRIMARY KEY AUTOINCREMENT]. *)
Record column : Type := Column {
  col_name : string;
  col_type : affinity;
  col_autoincrement : bool
}.

Record row : Type := Row { rowid : Z; cells : list value }.

(** A table: its columns in declaration order, its rows in insertion order,
    and its entry in [sqlite_sequence], the largest key AUTOINCREMENT has
    handed out so far. *)
Record table : Type := Table {
  columns : list column;
  rows : list row;
  sequence : Z
}.

Inductive statement : Type :=
| CreateTableIfNotExists (name : string) (cols : list column)
| InsertInto (name : string) (cols : list string) (placeholders : nat).

(** *** Reading a statement's text *)

Definition is_space (a : ascii) : bool :=
  bool_decide (a = " "%char) || bool_decide (a = "010"%char)
  || bool_decide (a = "009"%char) || bool_decide (a = "013"%char).

Definition is_punct (a : ascii) : bool :=
  bool_decide (a = "("%char) || bool_decide (a = ")"%char)
  || bool_decide (a = ","%char) || bool_decide (a = "?"%char).

Definition flush (word : list ascii) (rest : list string) : list string :=
  match word with
  | [] => rest
  | _ => string_of_list_ascii (rev word) :: rest
  end.

(** Tokens: words, and each of [( ) , ?] on its own. *)
Fixpoint lex (s : string) (word : list ascii) : list string :=
  match s with
  | EmptyString => flush word []
  | String a s' =>
      if is_space a then flush word (lex s' [])
      else if is_punct a then flush word (String a "" :: lex s' [])
      else lex s' (a :: word)
  end.

(** Drops the keywords [kws] from the front of [ts]. *)
Fixpoint expect (kws ts : list string) : option (list string) :=
  match kws, ts with
  | [], _ => Some ts
  | k :: kws', t :: ts' => if decide (k = t) then expect kws' ts' else None
  | _ :: _, [] => None
  end.

(** The comma-separated items up to the closing parenthesis, and what
    follows it. *)
Fixpoint items (ts : list string) (item : list string)
  : option (list (list string) * list string) :=
  match ts with
  | [] => None
  | t :: ts' =>
      if decide (t = ")") then Some ([rev item], ts')
      else if decide (t = ",") then
        match items ts' [] with
        | Some (rest_items, rest) => Some (rev item :: rest_items, rest)
        | None => None
        end
      else if decide (t = "(") then None
      else items ts' (t :: item)
  end.

Definition paren_list (ts : list string) : option (list (list string) * list string) :=
  match ts with
  | t :: ts' => if decide (t = "(") then items ts' [] else None
  | [] => None
  end.

Definition parse_type (t : string) : option affinity :=
  if decide (t = "TEXT") then Some TEXT
  else if decide (t = "INTEGER") then Some INTEGER
  else None.

Definition parse_column (item : list string) : option column :=
  match item with
  | [n; ty] => (fun a => Column n a false) <$> parse_type ty
  | [n; ty; p; k; a] =>
      if decide ([ty; p; k; a] = ["INTEGER"; "PRIMARY"; "KEY"; "AUTOINCREMENT"])
      then Some (Column n INTEGER true)
      else None
  | _ => None
  end.

Definition parse_name (item : list string) : option string :=
  match item with
  | [n] => if decide (n = "?") then None else Some n
  | _ => None
  end.

Definition parse_placeholder (item : list string) : option unit :=
  match item with
  | [q] => if decide (q = "?") then Some tt else None
  | _ => None
  end.

Definition parse_create (ts : list string) : option statement :=
  match expect ["CREATE"; "TABLE"; "IF"; "NOT"; "EXISTS"] ts with
  | Some (name :: ts') =>
      match paren_list ts' with
      | Some (defs, []) => CreateTableIfNotExists name <$> mapM parse_column defs
      | _ => None
      end
  | _ => None
  end.

Definition parse_insert (ts : list string) : option statement :=
  match expect ["INSERT"; "INTO"] ts with
  | Some (name :: ts') =>
      match paren_list ts' with
      | Some (names, rest) =>
          match expect ["VALUES"] rest with
          | Some rest' =>
              match paren_list rest' with
              | Some (marks, []) =>
                  cols ← mapM parse_name names;
                  _ ← mapM parse_placeholder marks;
                  Some (InsertInto name cols (length marks))
              | _ => None
              end
          | None => None
          end
      | None => None
      end
  | _ => None
  end.

(** The two statement forms the application sends, keywords in upper case
    as the sources write them; any other text is a syntax error here. *)
Definition parse (sql : string) : option statement :=
  let ts := lex sql [] in
  match parse_create ts with
  | Some s => Some s
  | None => parse_insert ts
  end.

(** *** Executing a statement *)

Definition MAX_ROWID : Z := 2 ^ 63 - 1.

Definition has_autoincrement (t : table) : bool :=
  existsb col_autoincrement (columns t).

Definition largest_rowid (rs : list row) : option Z :=
  foldr (fun r acc => Some (match acc with
                            | Some m => Z.max (rowid r) m
                            | None => rowid r
                            end)) None rs.

(** The key of the next row.  Without AUTOINCREMENT it is one more than the
    largest key in the table.  With it, it is also more than every key the
    table ever held, and the insert fails once the largest possible key has
    been used.  (Without AUTOINCREMENT SQLite then probes for an unused
    key; that search is left out and reported as a failure.) *)
Definition new_rowid (t : table) : option Z :=
  let v :=
    match largest_rowid (rows t) with
    | None => Some 1
    | Some m => if decide (m = MAX_ROWID) then None else Some (m + 1)
    end in
  if has_autoincrement t then
    match v with
    | Some v =>
        if decide (sequence t = MAX_ROWID) then None
        else Some (Z.max v (sequence t + 1))
    | None => None
    end
  else v.

Fixpoint assoc (k : string) (kvs : list (string * value)) : option value :=
  match kvs with
  | [] => None
  | (k', v) :: kvs' => if decide (k = k') then Some v else assoc k kvs'
  end.

(** The cell of column [c] in a new row: the generated key in the key
    column, the bound value of a named column (stored as it was bound: in
    the declared table every bound value already has its column's type),
    NULL elsewhere. *)
Definition cell (id : Z) (given : list (string * value)) (c : column) : value :=
  if col_autoincrement c then Integer id
  else default Null (assoc (col_name c) given).

Definition new_row (id : Z) (cols : list string) (binds : list value) (t : table) : row :=
  Row id (cell id (zip cols binds) <$> columns t).

Inductive result : Type :=
| Done (db : gmap string table)
| Failed (error : string).

Definition execute (s : statement) (binds : list value) (db : gmap string table) : result :=
  match s with
  | CreateTableIfNotExists name cols =>
      if decide (binds = []) then
        match db !! name with
        | Some _ => Done db
        | None => Done (<[name := Table cols [] 0]> db)
        end
      else Failed "Parameter count mismatch"
  | InsertInto name cols n =>
      match db !! name with
      | None => Failed ("no such table: " ++ name)
      | Some t =>
          if decide (Forall (fun c => c ∈ col_name <$> columns t) cols) then
            if decide (length cols = n) then
              if decide (length binds = n) then
                match new_rowid t with
                | Some id =>
                    Done (<[name := Table (columns t)
                                          (rows t ++ [new_row id cols binds t])
                                          (if has_autoincrement t then id else sequence t)]> db)
                | None => Failed "database or disk is full"
                end
              else Failed "Parameter count mismatch"
            else Failed "values do not match the columns"
          else Failed ("table " ++ name ++ " has no such column")
      end
  end.

(** [DELETE FROM name WHERE id = ?] bound to [id]: the row goes, the
    table's [sqlite_sequence] entry stays. *)
Definition delete_row (name : string) (id : Z) (db : gmap string table) : gmap string table :=
  match db !! name with
  | Some t => <[name := Table (columns t)
                              (filter (fun r => rowid r ≠ id) (rows t))
                              (sequence t)]> db
  | None => db
  end.

End Sql.

(** ** The connection and its query object ([QSqlDatabase], [QSqlQuery]) *)

Module QtSql.
Import Sql.

Inductive call : Type :=
| AddDatabase (driver : string)
| SetDatabaseName (name : string)
| Open
| Close
| Exec (sql : string)
| Prepare (sql : string)
| AddBindValue (v : value)
| ExecPrepared.

(** The default connection with the query object built on it.  [can_open]
    and [io_error] describe the environment: whether the driver manages to
    open the database file, and the error the storage reports when a
    statement runs (if it does).  [calls] records every call made. *)
Record connection : Type := Connection {
  can_open : bool;
  io_error : option string;
  isOpen : bool;
  database : gmap string table;
  prepared : string;
  boundValues : list value;
  lastError : string;
  calls : list call
}.

Definition set_isOpen (b : bool) (c : connection) : connection :=
  Connection (can_open c) (io_error c) b (database c) (prepared c)
             (boundValues c) (lastError c) (calls c).

Definition set_database (db : gmap string table) (c : connection) : connection :=
  Connection (can_open c) (io_error c) (isOpen c) db (prepared c)
             (boundValues c) (lastError c) (calls c).

Definition set_query (sql : string) (vs : list value) (c : connection) : connection :=
  Connection (can_open c) (io_error c) (isOpen c) (database c) sql
             vs (lastError c) (calls c).

Definition set_lastError (e : string) (c : connection) : connection :=
  Connection (can_open c) (io_error c) (isOpen c) (database c) (prepared c)
             (boundValues c) e (calls c).

Definition record (k : call) (c : connection) : connection :=
  Connection (can_open c) (io_error c) (isOpen c) (database c) (prepared c)
             (boundValues c) (lastError c) (calls c ++ [k]).

(** [QSqlDatabase.addDatabase(driver)] and [db.setDatabaseName(name)]. *)
Definition db_addDatabase (driver : string) : py connection unit :=
  modify (record (AddDatabase driver)).

Definition db_setDatabaseName (name : string) : py connection unit :=
  modify (record (SetDatabaseName name)).

(** [db.open()]. *)
Definition db_open : py connection bool :=
  fun c =>
    let c := record Open c in
    if can_open c then Run (Returned true) (set_isOpen true c) []
    else Run (Returned false) (set_lastError "unable to open database file" c) [].

(** [db.isOpen()]. *)
Definition db_isOpen : py connection bool :=
  fun c => Run (Returned (isOpen c)) c [].

(** [db.close()]. *)
Definition db_close : py connection unit :=
  fun c => Run (Returned tt) (set_isOpen false (record Close c)) [].

(** What running the text [sql] with the values [vs] does to the database:
    nothing on a closed connection, on an I/O error or on a syntax error. *)
Definition run_statement (sql : string) (vs : list value) (c : connection) : result :=
  if isOpen c then
    match io_error c with
    | Some e => Failed e
    | None =>
        match parse sql with
        | Some s => execute s vs (database c)
        | None => Failed "syntax error"
        end
    end
  else Failed "Driver not loaded".

Definition finish (r : result) (c : connection) : run connection bool :=
  match r with
  | Done db => Run (Returned true) (set_lastError "" (set_database db c)) []
  | Failed e => Run (Returned false) (set_lastError e c) []
  end.

(** [query.exec(sql)]. *)
Definition query_exec (sql : string) : py connection bool :=
  fun c => finish (run_statement sql [] c) (record (Exec sql) c).

(** [query.prepare(sql)]; the callers drop its result. *)
Definition query_prepare (sql : string) : py connection unit :=
  fun c => Run (Returned tt) (set_query sql [] (record (Prepare sql) c)) [].

(** [query.addBindValue(v)]. *)
Definition query_addBindValue (v : value) : py connection unit :=
  fun c => Run (Returned tt)
               (set_query (prepared c) (boundValues c ++ [v]) (record (AddBindValue v) c)) [].

(** [query.exec()] of the prepared statement. *)
Definition query_exec_prepared : py connection bool :=
  fun c => finish (run_statement (prepared c) (boundValues c) c) (record ExecPrepared c).

(** [query.lastError().text()]. *)
Definition query_lastError_text : py connection string :=
  fun c => Run (Returned (lastError c)) c [].

End QtSql.

(** ** [database/database_manager.py] *)

Module database_manager.
Import Sql QtSql.

(** *** Bootstrap: [initialize_database] *)

(** The machine the bootstrap runs on.  [copy_failure] and [can_create]
    describe the environment: the exception [shutil.copy] meets (with what
    it leaves at the destination, if anything), and whether the SQLite
    driver manages to open, and so create, a database file. *)
Record host : Type := Host {
  files : gmap string (list Byte.byte);
  copy_failure : option (exn * option (list Byte.byte));
  can_create : bool
}.

Definition set_files (fs : gmap string (list Byte.byte)) (h : host) : host :=
  Host fs (copy_failure h) (can_create h).

(** [os.path.exists(path)]. *)
Definition os_path_exists (path : string) : py host bool :=
  fun h => Run (Returned (bool_decide (is_Some (files h !! path)))) h [].

(** [shutil.copy(src, dst)]. *)
Definition shutil_copy (src dst : string) : py host unit :=
  fun h =>
    match files h !! src with
    | None => Run (Raised (OSError "No such file or directory")) h []
    | Some content =>
        match copy_failure h with
        | Some (e, Some part) => Run (Raised e) (set_files (<[dst := part]> (files h)) h) []
        | Some (e, None) => Run (Raised e) h []
        | None => Run (Returned tt) (set_files (<[dst := content]> (files h)) h) []
        end
    end.

(** [db = QSqlDatabase.addDatabase('QSQLITE'); db.setDatabaseName(path);
    db.open()]: SQLite creates the file, empty, when it is not there. *)
Definition db_open_file (path : string) : py host bool :=
  fun h =>
    if can_create h then
      match files h !! path with
      | Some _ => Run (Returned true) h []
      | None => Run (Returned true) (set_files (<[path := []]> (files h)) h) []
      end
    else Run (Returned false) h [].

(** [db.close()] leaves the files as they are. *)
Definition db_close_file : py host unit := py_ret tt.

Section Bootstrap.
(** [db_path] and [target_db_path]: the template beside the application and
    the per-user database, both named after [tracker_config.DB_NAME]. *)
Context (db_path target_db_path : string).

Definition initialize_database : py host unit :=
  try_except
    (target_exists <- os_path_exists target_db_path;;
     if negb target_exists then
       template_exists <- os_path_exists db_path;;
       if template_exists then shutil_copy db_path target_db_path
       else
         opened <- db_open_file target_db_path;;
         (if negb opened then logger_error "Error: Unable to create database"
          else py_ret tt);;
         db_close_file
     else py_ret tt)
    (fun e => logger_error "Error: Unable to create database").

End Bootstrap.

(** *** [class DataManager] *)

Module DataManager.

Definition altman_create_sql : string := "
                        CREATE TABLE IF NOT EXISTS altman_refined_table (
                        id INTEGER PRIMARY KEY AUTOINCREMENT,
                        altman_date TEXT,
                        altman_time TEXT,
                        altman_question INTEGER,
                        altman_question_2 INTEGER,
                        altman_question_3 INTEGER,
                        altman_question_4 INTEGER,
                        altman_question_5 INTEGER,
                        altmans_summary INTEGER
                        )".

Definition setup_altman_table : py connection unit :=
  created <- query_exec altman_create_sql;;
  if negb created then logger_error "Error creating table: altman_refined_table"
  else py_ret tt.

Definition setup_tables : py connection unit := setup_altman_table.

(** [DataManager.__init__]; [self.query = QSqlQuery()] is a query object
    with nothing prepared. *)
Definition __init__ (db_name : string) : py connection unit :=
  try_except
    (db_addDatabase "QSQLITE";;
     db_setDatabaseName db_name;;
     opened <- db_open;;
     (if negb opened then logger_error "Error: Unable to open database"
      else py_ret tt);;
     logger_info "DB INITIALIZING";;
     modify (set_query "" []);;
     setup_tables)
    (fun e => logger_error ("Error: Unable to open database " ++ str e)).

Definition altman_insert_sql : string := "INSERT INTO altman_refined_table(
            altman_date,
            altman_time,
            altman_question,
            altman_question_2,
            altman_question_3,
            altman_question_4,
            altman_question_5,
            altmans_summary
            ) VALUES (?, ?, ?, ?, ?, ?, ?, ?)".

Definition mismatch_message (expected got : nat) : string :=
  "Mismatch: altman_refined_table Expected " ++ pretty expected ++ "
                        bind values, got " ++ pretty got ++ ".".

(** The body of the [try] statement of [insert_into_altman_table] as a
    function of the two locals, the statement text and the values to bind. *)
Definition insert_attempt (sql : string) (bind_values : list value) : py connection unit :=
  query_prepare sql;;
  for_each bind_values query_addBindValue;;
  if decide (count "?"%char sql ≠ length bind_values) then
    raise (ValueError (mismatch_message (count "?"%char sql) (length bind_values)))
  else
    inserted <- query_exec_prepared;;
    if negb inserted then
      text <- query_lastError_text;;
      logger_error ("Error inserting data: altman_refined_table - " ++ text)
    else py_ret tt.

(** The [try] statement with its two handlers. *)
Definition insert_statement (sql : string) (bind_values : list value) : py connection unit :=
  try_except
    (insert_attempt sql bind_values)
    (fun e =>
       match e with
       | ValueError _ => logger_error ("ValueError altman_refined_table: " ++ str e)
       | _ => logger_error ("Error during data insertion: altman_refined_table " ++ str e)
       end).

Definition bind_values (altman_date altman_time : string)
    (altman_question altman_question_2 altman_question_3 altman_question_4
     altman_question_5 altmans_summary : Z) : list value :=
  [Text altman_date; Text altman_time; Integer altman_question;
   Integer altman_question_2; Integer altman_question_3; Integer altman_question_4;
   Integer altman_question_5; Integer altmans_summary].

Definition insert_into_altman_table (altman_date altman_time : string)
    (altman_question altman_question_2 altman_question_3 altman_question_4
     altman_question_5 altmans_summary : Z) : py connection unit :=
  insert_statement altman_insert_sql
    (bind_values altman_date altman_time altman_question altman_question_2
       altman_question_3 altman_question_4 altman_question_5 altmans_summary).

End DataManager.

(** [close_database(self)], written at module level, below the class. *)
Definition close_database : py connection unit :=
  try_except
    (logger_info "if database is open";;
     open <- db_isOpen;;
     if open then logger_info "the database is closed successfully";; db_close
     else py_ret tt)
    (fun e => logger_error ("Error closing database: " ++ str e)).

End database_manager.

(** ** [ui/main_window.py] *)

Module main_window.
Import QtSql database_manager.

(** A Qt slider: its range and its value, which Qt keeps inside the range. *)
Record slider : Type := Slider { minimum : Z; maximum : Z; value : Z }.

Definition bound (lo v hi : Z) : Z := Z.max lo (Z.min hi v).

(** [slider.setValue(v)]. *)
Definition setValue (v : Z) (s : slider) : slider :=
  Slider (minimum s) (maximum s) (bound (minimum s) v (maximum s)).

(** [slider.setRange(lo, hi)]: the maximum never goes below the minimum and
    the value is brought into the new range. *)
Definition setRange (lo hi : Z) (s : slider) : slider :=
  Slider lo (Z.max lo hi) (bound lo (value s) (Z.max lo hi)).

(** The widgets the summary depends on; [altmans_summary] holds the value
    last given to the summary widget's [setValue]. *)
Record form : Type := Form {
  altman_question : slider;
  altman_question_2 : slider;
  altman_question_3 : slider;
  altman_question_4 : slider;
  altman_question_5 : slider;
  altmans_summary : Z
}.

Definition sliders (f : form) : list slider :=
  [altman_question f; altman_question_2 f; altman_question_3 f;
   altman_question_4 f; altman_question_5 f].

Definition answers (f : form) : list Z := value <$> sliders f.

Definition altmans_summary_setValue (v : Z) (f : form) : form :=
  Form (altman_question f) (altman_question_2 f) (altman_question_3 f)
       (altman_question_4 f) (altman_question_5 f) v.

Module MainWindow.

(** [MainWindow.update_altmans_summary]. *)
Definition update_altmans_summary : py form unit :=
  try_except
    (f <- get;;
     let values := value <$> filter (fun slider => value slider > 0) (sliders f) in
     let altmans_sum := py_sum values in
     modify (altmans_summary_setValue altmans_sum))
    (fun e => logger_error (str e)).

(** The slider set-up of [MainWindow.altman_table_commit]:
    [for slider in [...]: slider.setRange(0, 4)]. *)
Definition altman_table_commit : py form unit :=
  modify (fun f =>
    Form (setRange 0 4 (altman_question f)) (setRange 0 4 (altman_question_2 f))
         (setRange 0 4 (altman_question_3 f)) (setRange 0 4 (altman_question_4 f))
         (setRange 0 4 (altman_question_5 f)) (altmans_summary f)).

(** The window: its form, its [DataManager], the stored settings and the
    geometry and state the window would save. *)
Record window : Type := Window {
  ui : form;
  db_manager : connection;
  settings : gmap string string;
  geometry : string;
  windowState : string
}.

Definition set_ui (f : form) (w : window) : window :=
  Window f (db_manager w) (settings w) (geometry w) (windowState w).

Definition set_db_manager (c : connection) (w : window) : window :=
  Window (ui w) c (settings w) (geometry w) (windowState w).

(** [self.settings.setValue(key, v)]. *)
Definition settings_setValue (key v : string) : py window unit :=
  modify (fun w => Window (ui w) (db_manager w) (<[key := v]> (settings w))
                          (geometry w) (windowState w)).

(** [MainWindow.__init__], the steps that touch the form or the database:
    the [DataManager] is built, the summary computed, the sliders set up.
    (Model binding, geometry and navigation wiring leave both alone.)
    [target_db_path] is the default of [DataManager]'s [db_name]. *)
Definition __init__ (target_db_path : string) : py window unit :=
  zoom db_manager set_db_manager (DataManager.__init__ target_db_path);;
  zoom ui set_ui update_altmans_summary;;
  zoom ui set_ui altman_table_commit.

Definition save_state : py window unit :=
  try_except
    (w <- get;; settings_setValue "geometry" (geometry w))
    (fun e => logger_error ("Error saving the minds_module geo" ++ str e));;
  try_except
    (w <- get;; settings_setValue "windowState" (windowState w))
    (fun e => logger_error ("Error saving the minds_module geo" ++ str e)).

(** [MainWindow.closeEvent]. *)
Definition closeEvent : py window unit :=
  try_except save_state
    (fun e => logger_error ("error saving state during closure: " ++ str e)).

End MainWindow.

End main_window.

(** ** States and notions the properties speak of *)

Section Notions.
Import Sql QtSql database_manager.


(** The content the target is meant to have after the bootstrap: what it
    held, else what the template holds, else nothing. *)
Definition expected_target (db_path target_db_path : string) (h : host) : list Byte.byte :=
  match files h !! target_db_path with
  | Some prior => prior
  | None =>
      match files h !! db_path with
      | Some template => template
      | None => []
      end
  end.

(** The table as [setup_altman_table] declares it. *)
Definition altman_refined_table : string := "altman_refined_table".

Definition altman_columns : list column :=
  [Column "id" INTEGER true;
   Column "altman_date" TEXT false;
   Column "altman_time" TEXT false;
   Column "altman_question" INTEGER false;
   Column "altman_question_2" INTEGER false;
   Column "altman_question_3" INTEGER false;
   Column "altman_question_4" INTEGER false;
   Column "altman_question_5" INTEGER false;
   Column "altmans_summary" INTEGER false].

(** A stored submission as the read model shows it, key first. *)
Definition submission (id : Z) (date time : string) (a1 a2 a3 a4 a5 summary : Z) : row :=
  Row id [Integer id; Text date; Text time; Integer a1; Integer a2; Integer a3;
          Integer a4; Integer a5; Integer summary].

(** The connection can store a submission: it is open, the storage reports
    no error, the table is there with the declared columns, and a key is
    left for the next row. *)
Definition ready (c : connection) (t : table) : Prop :=
  isOpen c = true /\ io_error c = None /\
  database c !! altman_refined_table = Some t /\
  columns t = altman_columns /\
  is_Some (new_rowid t).

(** The largest key among the rows, 0 in an empty table. *)
Definition max_id (t : table) : Z := default 0 (largest_rowid (rows t)).

(** The connection once [sql] is prepared and the values [vs] are bound. *)
Definition after_binding (sql : string) (vs : list value) (c : connection) : connection :=
  Connection (can_open c) (io_error c) (isOpen c) (database c) sql vs
             (lastError c) (calls c ++ Prepare sql :: (AddBindValue <$> vs)).


(** A closed connection to a database without tables, on a machine where
    the driver can open it. *)
Definition fresh_connection : connection :=
  Connection true None false ∅ "" [] "" [].


(** The declared table after three submissions were stored and the last of
    them deleted: rows 1 and 2 are left, key 3 has been handed out. *)
Definition two_of_three : table :=
  Table altman_columns
        [submission 1 "2024-01-01" "08:00" 1 0 0 0 0 1;
         submission 2 "2024-01-02" "08:00" 0 2 0 0 0 2]
        3.

Definition after_delete : connection :=
  Connection true None true {[ altman_refined_table := two_of_three ]} "" [] "" [].

(** The connection of a window just built on a new database: open, with
    the declared table and no row. *)
Definition new_database : connection :=
  st (DataManager.__init__ "/home/user/altman.db" fresh_connection).

(** A statement with seven placeholders, one short of the eight values. *)
Definition seven_placeholders : string :=
  "INSERT INTO altman_refined_table(altman_date) VALUES (?, ?, ?, ?, ?, ?, ?)".

(** A form whose five sliders, each ranging over [0, 4], show the given
    values. *)
Definition form_of (a1 a2 a3 a4 a5 summary : Z) : main_window.form :=
  main_window.Form (main_window.Slider 0 4 a1) (main_window.Slider 0 4 a2)
                   (main_window.Slider 0 4 a3) (main_window.Slider 0 4 a4)
                   (main_window.Slider 0 4 a5) summary.

(** What one answer adds to a sum that takes only the answers above 0. *)
Definition counted (a : Z) : Z := if decide (a > 0) then a else 0.

(** A window about to be built: its connection still closed, its database
    without tables, nothing saved in the settings. *)
Definition new_window : main_window.MainWindow.window :=
  main_window.MainWindow.Window (form_of 0 0 0 0 0 0) fresh_connection
                                ∅ "475x170" "normal".

End Notions.

(** A machine with a template beside the application, no database in the
    user's directory yet, and a user directory that refuses new files. *)
Definition read_only_home : database_manager.host :=
  database_manager.Host {[ "/opt/altman/altman.db" := [Byte.x53; Byte.x51; Byte.x4c] ]}
                        (Some (OSError "Permission denied", None)) false.

(** The same machine with a user directory that accepts the copy. *)
Definition fresh_home : database_manager.host :=
  database_manager.Host {[ "/opt/altman/altman.db" := [Byte.x53; Byte.x51; Byte.x4c] ]} None true.

(** * The rest of the window: navigation, settings, slider events *)

(** ** Python arithmetic *)

(** [ZeroDivisionError(msg)].  The exception type above has no constructor
    of its own for it; it travels as a [RuntimeError], which every
    [except Exception] handler of the sources treats alike. *)
Definition ZeroDivisionError (msg : string) : exn := RuntimeError msg.

(** [a % b] on Python integers: the result has the sign of [b]; a zero [b]
    raises. *)
Definition py_mod {S} (a b : Z) : py S Z :=
  if decide (b = 0) then raise (ZeroDivisionError "integer modulo by zero")
  else py_ret (a mod b).

(** ** Stacked widgets ([QStackedWidget]) *)

Module QtWidgets.

(** A stack of pages: how many there are and which one shows; Qt keeps the
    index at -1 while there is no page. *)
Record stacked : Type := Stacked { pages : Z; current : Z }.

(** [stack.count()] and [stack.currentIndex()]. *)
Definition stack_count : py stacked Z :=
  fun s => Run (Returned (pages s)) s [].

Definition stack_currentIndex : py stacked Z :=
  fun s => Run (Returned (current s)) s [].

(** [stack.setCurrentIndex(index)]: an index without a page changes
    nothing. *)
Definition stack_setCurrentIndex (index : Z) : py stacked unit :=
  fun s =>
    if decide (0 <= index < pages s) then Run (Returned tt) (Stacked (pages s) index) []
    else Run (Returned tt) s [].

(** [stack.setCurrentWidget(widget)], given the index of [widget] among the
    stack's pages: a widget that is not one of them changes nothing. *)
Definition stack_setCurrentWidget (index_of_widget : option Z) : py stacked unit :=
  match index_of_widget with
  | Some index => stack_setCurrentIndex index
  | None => py_ret tt
  end.

End QtWidgets.

(** ** [navigation/master_navigation.py] *)

Module master_navigation.
Import QtWidgets.

(** [change_stack_page(mainStack, index)], run on the stack it is given. *)
Definition change_stack_page (index : Z) : py stacked unit :=
  try_except
    (stack_setCurrentIndex index;;
     logger_info "Minder Stack Page Change")
    (fun e => logger_error ("Minder Stack Page Change Error: " ++ str e)).

End master_navigation.

(** ** [ui/main_window.py]: pages, settings, slider signals *)

Module main_window_pages.
Import QtWidgets master_navigation main_window main_window.MainWindow.

(** The part of the window the navigation works on: the two stacks and the
    size the window is fixed to, if any. *)
Record shell : Type := Shell {
  mainStack : stacked;
  altmanQuestionStack : stacked;
  fixedSize : option (Z * Z)
}.

Definition set_mainStack (s : stacked) (w : shell) : shell :=
  Shell s (altmanQuestionStack w) (fixedSize w).

Definition set_altmanQuestionStack (s : stacked) (w : shell) : shell :=
  Shell (mainStack w) s (fixedSize w).

(** [self.setFixedSize(width, height)]. *)
Definition setFixedSize (width height : Z) : py shell unit :=
  modify (fun w => Shell (mainStack w) (altmanQuestionStack w) (Some (width, height))).

Definition on_mainStack {A} (m : py stacked A) : py shell A :=
  zoom mainStack set_mainStack m.

Definition on_altmanQuestionStack {A} (m : py stacked A) : py shell A :=
  zoom altmanQuestionStack set_altmanQuestionStack m.

(** [MainWindow.next_page]. *)
Definition next_page : py shell unit :=
  try_except
    (current_index <- on_altmanQuestionStack stack_currentIndex;;
     n <- on_altmanQuestionStack stack_count;;
     next_index <- py_mod (current_index + 1) n;;
     on_altmanQuestionStack (stack_setCurrentIndex next_index))
    (fun e => logger_error ("Error in next_page: " ++ str e)).

(** [MainWindow.prev_page]. *)
Definition prev_page : py shell unit :=
  try_except
    (current_index <- on_altmanQuestionStack stack_currentIndex;;
     n <- on_altmanQuestionStack stack_count;;
     prev_index <- py_mod (current_index - 1) n;;
     on_altmanQuestionStack (stack_setCurrentIndex prev_index))
    (fun e => logger_error ("Error in prev_page: " ++ str e)).

(** [MainWindow.go_home]. *)
Definition go_home : py shell unit :=
  try_except
    (on_altmanQuestionStack (stack_setCurrentIndex 0))
    (fun e => logger_error ("Error in go_home: " ++ str e)).

(** [MainWindow.see_measure]. *)
Definition see_measure : py shell unit :=
  try_except
    (on_altmanQuestionStack (stack_setCurrentIndex 5))
    (fun e => logger_error ("Error in see_measure: " ++ str e)).

(** [MainWindow.switchone]: [self.mainStack.setCurrentWidget(self.mainStack)]
    hands the stack itself to the stack, and a stack is none of its own
    pages. *)
Definition switchone : py shell unit :=
  try_except
    (on_mainStack (stack_setCurrentWidget None);;
     setFixedSize 475 170)
    (fun e => logger_error ("error switching to question stack " ++ str e)).

(** [MainWindow.switchtwo]. *)
Definition switchtwo : py shell unit :=
  try_except
    (on_mainStack (stack_setCurrentWidget None);;
     setFixedSize 900 460)
    (fun e => logger_error (str e)).

(** What [actionShowAltmanExam.triggered] runs: the slot [app_operations]
    connects, then the one [stack_navigation] connects, in that order. *)
Definition actionShowAltmanExam_triggered : py shell unit :=
  switchone;;
  on_mainStack (change_stack_page 0).

(** What [actionShowAltmanTable.triggered] runs. *)
Definition actionShowAltmanTable_triggered : py shell unit :=
  switchtwo;;
  on_mainStack (change_stack_page 1).

(** [m] run [k] times in a row. *)
Fixpoint times {S} (k : nat) (m : py S unit) : py S unit :=
  match k with
  | O => py_ret tt
  | Datatypes.S k' => m;; times k' m
  end.

(** *** Settings *)

Section Restore.
(** Whether Qt accepts a byte array as a saved geometry or state: it takes
    what [saveGeometry] and [saveState] return and refuses an empty array. *)
Context (accepts : string -> bool).

(** [self.settings.value(key, QByteArray())]. *)
Definition settings_value (key : string) : py window string :=
  fun w => Run (Returned (default "" (settings w !! key))) w [].

(** [self.restoreGeometry(data)] and [self.restoreState(data)]. *)
Definition restoreGeometry (data : string) : py window bool :=
  fun w =>
    if accepts data
    then Run (Returned true) (Window (ui w) (db_manager w) (settings w) data (windowState w)) []
    else Run (Returned false) w [].

Definition restoreState (data : string) : py window bool :=
  fun w =>
    if accepts data
    then Run (Returned true) (Window (ui w) (db_manager w) (settings w) (geometry w) data) []
    else Run (Returned false) w [].

(** [MainWindow.restore_state]. *)
Definition restore_state : py window unit :=
  try_except
    (data <- settings_value "geometry";;
     _ <- restoreGeometry data;;
     py_ret tt)
    (fun e => logger_error ("Error restoring the minds module : stress state " ++ str e));;
  try_except
    (data <- settings_value "windowState";;
     _ <- restoreState data;;
     py_ret tt)
    (fun e => logger_error ("Error restoring WINDOW STATE " ++ str e)).

End Restore.

(** *** Slider signals *)

Inductive question : Type :=
| Question1 | Question2 | Question3 | Question4 | Question5.

#[export] Instance question_eq_dec : EqDecision question.
Proof. solve_decision. Defined.

Definition slider_of (q : question) (f : form) : slider :=
  match q with
  | Question1 => altman_question f
  | Question2 => altman_question_2 f
  | Question3 => altman_question_3 f
  | Question4 => altman_question_4 f
  | Question5 => altman_question_5 f
  end.

Definition with_slider (q : question) (s : slider) (f : form) : form :=
  match q with
  | Question1 => Form s (altman_question_2 f) (altman_question_3 f)
                      (altman_question_4 f) (altman_question_5 f) (altmans_summary f)
  | Question2 => Form (altman_question f) s (altman_question_3 f)
                      (altman_question_4 f) (altman_question_5 f) (altmans_summary f)
  | Question3 => Form (altman_question f) (altman_question_2 f) s
                      (altman_question_4 f) (altman_question_5 f) (altmans_summary f)
  | Question4 => Form (altman_question f) (altman_question_2 f) (altman_question_3 f)
                      s (altman_question_5 f) (altmans_summary f)
  | Question5 => Form (altman_question f) (altman_question_2 f) (altman_question_3 f)
                      (altman_question_4 f) s (altmans_summary f)
  end.

(** The slider of question [q] is set to [v], by the user or by
    [setValue]: Qt keeps the value in the slider's range and, when the
    value changed, emits [valueChanged], which [altman_table_commit]
    connects to [update_altmans_summary]. *)
Definition slider_set (q : question) (v : Z) : py form unit :=
  f <- get;;
  let s := slider_of q f in
  let s' := setValue v s in
  if decide (value s' = value s) then py_ret tt
  else
    modify (with_slider q s');;
    update_altmans_summary.

End main_window_pages.

(** ** Notions for the further properties *)

Section MoreNotions.
Import Sql QtSql database_manager.





(** The largest key the table holds or ever held. *)
Definition handed_out (t : table) : Z := Z.max (max_id t) (sequence t).

(** The keys of the rows, in row order. *)
Definition keys (t : table) : list Z := rowid <$> rows t.

(** The keys increase along the list. *)
Fixpoint increasing (l : list Z) : Prop :=
  match l with
  | [] => True
  | k :: l' => Forall (fun k' => k < k') l' /\ increasing l'
  end.


(** The stack holds a page index Qt can be in. *)
Definition stack_ok (s : QtWidgets.stacked) : Prop :=
  (QtWidgets.pages s = 0 /\ QtWidgets.current s = -1) \/
  0 <= QtWidgets.current s < QtWidgets.pages s.

(** The summary on the form is the one its sliders give. *)
Definition summary_current (f : main_window.form) : Prop :=
  main_window.altmans_summary f
  = counted (main_window.value (main_window.altman_question f))
    + counted (main_window.value (main_window.altman_question_2 f))
    + counted (main_window.value (main_window.altman_question_3 f))
    + counted (main_window.value (main_window.altman_question_4 f))
    + counted (main_window.value (main_window.altman_question_5 f)).

(** Every slider ranges over 0 to 4 and holds a value in that range. *)
Definition sliders_in_range (f : main_window.form) : Prop :=
  Forall (fun s => main_window.minimum s = 0 /\ main_window.maximum s = 4 /\
                   0 <= main_window.value s <= 4)
         (main_window.sliders f).

End MoreNotions.

(** * Properties *)

(** ** Running Python code *)

Section PyFacts.
Context {S : Type}.

Lemma py_bind_returned {A B} (m : py S A) (f : A -> py S B) (s s' : S) (a : A)
    (l : list log_entry) :
  m s = Run (Returned a) s' l ->
  py_bind m f s = Run (out (f a s')) (st (f a s')) (l ++ logged (f a s')).
Proof. intros H. unfold py_bind. rewrite H. reflexivity. Qed.

End PyFacts.

(** ** The summary *)

Section Summary.
Import main_window main_window.MainWindow.

Lemma fold_left_add_acc (l : list Z) (a : Z) :
  fold_left Z.add l a = a + fold_left Z.add l 0.
Proof.
  revert a. induction l as [|x l IH]; intros a; simpl.
  - lia.
  - rewrite (IH (a + x)), (IH (0 + x)). lia.
Qed.

Lemma py_sum_cons (a : Z) (l : list Z) : py_sum (a :: l) = a + py_sum l.
Proof. unfold py_sum. simpl. rewrite fold_left_add_acc. lia. Qed.

(** Summing the values above 0 adds [counted] of every value. *)
Lemma py_sum_filter_counted (l : list slider) :
  py_sum (value <$> filter (fun s => value s > 0) l)
  = foldr (fun s acc => counted (value s) + acc) 0 l.
Proof.
  induction l as [|s l IH]; [reflexivity|].
  rewrite filter_cons. simpl. unfold counted at 1.
  destruct (decide (value s > 0)).
  - rewrite fmap_cons, py_sum_cons, IH. reflexivity.
  - rewrite IH. lia.
Qed.

Lemma counted_nonneg (a : Z) : 0 <= a -> counted a = a.
Proof. intros H. unfold counted. destruct (decide (a > 0)); lia. Qed.

Lemma update_altmans_summary_run (f : form) :
  update_altmans_summary f
  = Run (Returned tt)
        (altmans_summary_setValue
           (py_sum (value <$> filter (fun s => value s > 0) (sliders f))) f)
        [].
Proof. reflexivity. Qed.

Lemma altmans_summary_after_update (f : form) :
  altmans_summary (st (update_altmans_summary f))
  = counted (value (altman_question f)) + counted (value (altman_question_2 f))
    + counted (value (altman_question_3 f)) + counted (value (altman_question_4 f))
    + counted (value (altman_question_5 f)).
Proof.
  rewrite update_altmans_summary_run. cbn [st].
  unfold altmans_summary_setValue. cbn [altmans_summary].
  rewrite py_sum_filter_counted. unfold sliders. simpl. lia.
Qed.


(** C10: when none of the five answers is negative, as for values in the
    sliders' range from 0 to 4, leaving out the answers that are not above 0
    changes nothing: the summary is the plain sum of the five answers. *)
Theorem summary_is_plain_sum_of_nonnegative_answers (f : form) :
  Forall (fun a => 0 <= a) (answers f) ->
  altmans_summary (st (update_altmans_summary f))
  = value (altman_question f) + value (altman_question_2 f)
    + value (altman_question_3 f) + value (altman_question_4 f)
    + value (altman_question_5 f)
  /\ altmans_summary (st (update_altmans_summary f)) = py_sum (answers f).
Proof.
  intros H. rewrite altmans_summary_after_update.
  unfold answers, sliders in *.
  repeat match goal with
         | H : Forall _ (_ <$> _) |- _ => rewrite Forall_fmap in H
         | H : Forall _ (_ :: _) |- _ => apply Forall_cons in H; destruct H as [? H]
         end.
  simpl in *.
  rewrite !counted_nonneg by assumption.
  split; [reflexivity|].
  unfold py_sum. simpl. lia.
Qed.

Lemma summary_is_plain_sum_witness :
  Forall (fun a => 0 <= a) (answers (form_of 4 0 2 0 1 0)) /\
  altmans_summary (st (update_altmans_summary (form_of 4 0 2 0 1 0))) = 7.
Proof.
  assert (H : Forall (fun a => 0 <= a) (answers (form_of 4 0 2 0 1 0))).
  { unfold answers, sliders, form_of. simpl. repeat constructor; lia. }
  split; [exact H|].
  exact (proj1 (summary_is_plain_sum_of_nonnegative_answers (form_of 4 0 2 0 1 0) H)).
Defined.

(** After [altman_table_commit] every slider holds a value from 0 to 4,
    whatever it held before. *)
Lemma altman_table_commit_in_range (f : form) :
  Forall (fun a => 0 <= a <= 4) (answers (st (altman_table_commit f))).
Proof.
  unfold answers, sliders, altman_table_commit, modify, setRange, bound. simpl.
  repeat constructor; lia.
Qed.

End Summary.

(** ** The bootstrap *)

Section BootstrapFacts.
Import database_manager.
Context (db_path target_db_path : string).

Local Abbreviation initialize := (initialize_database db_path target_db_path).
Local Abbreviation unable := (Log ERROR "Error: Unable to create database").

(** [initialize_database], case by case. *)
Lemma initialize_database_run (h : host) :
  initialize h
  = match files h !! target_db_path with
    | Some _ => Run (Returned tt) h []
    | None =>
        match files h !! db_path with
        | Some template =>
            match copy_failure h with
            | None =>
                Run (Returned tt)
                    (set_files (<[target_db_path := template]> (files h)) h) []
            | Some (_, Some part) =>
                Run (Returned tt)
                    (set_files (<[target_db_path := part]> (files h)) h) [unable]
            | Some (_, None) => Run (Returned tt) h [unable]
            end
        | None =>
            if can_create h
            then Run (Returned tt) (set_files (<[target_db_path := []]> (files h)) h) []
            else Run (Returned tt) h [unable]
        end
    end.
Proof.
  unfold initialize_database, try_except, py_bind, os_path_exists.
  cbn [out st logged].
  destruct (files h !! target_db_path) as [prior|] eqn:Htarget; cbn; [reflexivity|].
  destruct (files h !! db_path) as [template|] eqn:Htemplate; cbn.
  - unfold shutil_copy. rewrite Htemplate.
    destruct (copy_failure h) as [[e [part|]]|]; reflexivity.
  - unfold db_open_file. rewrite Htarget.
    destruct (can_create h); reflexivity.
Qed.

Lemma initialize_database_existing (h : host) :
  is_Some (files h !! target_db_path) -> initialize h = Run (Returned tt) h [].
Proof.
  intros [prior H]. rewrite initialize_database_run, H. reflexivity.
Qed.

(** When nothing is logged the target holds what it is meant to hold. *)
Lemma initialize_database_silent (h : host) :
  logged (initialize h) = [] ->
  files (st (initialize h)) !! target_db_path
  = Some (expected_target db_path target_db_path h).
Proof.
  rewrite initialize_database_run. unfold expected_target.
  destruct (files h !! target_db_path) as [prior|] eqn:Htarget; cbn.
  - intros _. exact Htarget.
  - destruct (files h !! db_path) as [template|] eqn:Htemplate.
    + destruct (copy_failure h) as [[e [part|]]|]; cbn; try discriminate.
      intros _. apply lookup_insert_eq.
    + destruct (can_create h); cbn; try discriminate.
      intros _. apply lookup_insert_eq.
Qed.

(** No other file is touched. *)
Lemma initialize_database_frame (h : host) (path : string) :
  path <> target_db_path ->
  files (st (initialize h)) !! path = files h !! path.
Proof.
  intros Hne. rewrite initialize_database_run.
  destruct (files h !! target_db_path); [reflexivity|].
  destruct (files h !! db_path).
  - destruct (copy_failure h) as [[e [part|]]|]; cbn;
      rewrite ?lookup_insert_ne by congruence; reflexivity.
  - destruct (can_create h); cbn;
      rewrite ?lookup_insert_ne by congruence; reflexivity.
Qed.

(** C4, as amended: when [initialize_database] meets no failure (it logs
    nothing), then after it returns the target file exists and holds its
    prior contents if it was there, else a copy of the template if there is
    one, else nothing (a new, empty database file), no other file is
    touched, and a second call changes nothing.  With or without a failure,
    a target that is already there is left as it is. *)
Theorem initialize_database_target (h : host) :
  let r := initialize h in
  out r = Returned tt /\
  (logged r = [] ->
     files (st r) !! target_db_path = Some (expected_target db_path target_db_path h) /\
     (forall path, path <> target_db_path -> files (st r) !! path = files h !! path) /\
     initialize (st r) = Run (Returned tt) (st r) []) /\
  (is_Some (files h !! target_db_path) -> r = Run (Returned tt) h []).
Proof.
  intros r. subst r. split; [|split].
  - rewrite initialize_database_run.
    destruct (files h !! target_db_path); [reflexivity|].
    destruct (files h !! db_path).
    + destruct (copy_failure h) as [[e [part|]]|]; reflexivity.
    + destruct (can_create h); reflexivity.
  - intros Hsilent. split; [|split].
    + apply initialize_database_silent, Hsilent.
    + intros path. apply initialize_database_frame.
    + apply initialize_database_existing.
      rewrite (initialize_database_silent h Hsilent). eauto.
  - apply initialize_database_existing.
Qed.

End BootstrapFacts.

Section BootstrapExamples.
Import database_manager.

(** C4, as stated, fails: on [read_only_home] the copy raises, the
    exception is caught and logged, and [initialize_database] returns with
    no target file in place. *)
Lemma initialize_database_may_leave_no_target :
  let r := initialize_database "/opt/altman/altman.db" "/home/user/altman.db" read_only_home in
  out r = Returned tt /\
  files (st r) !! "/home/user/altman.db" = None /\
  files read_only_home !! "/home/user/altman.db" = None /\
  is_Some (files read_only_home !! "/opt/altman/altman.db").
Proof.
  cbv zeta. rewrite initialize_database_run.
  repeat split; vm_compute; eauto.
Qed.

Lemma initialize_database_target_witness :
  let r := initialize_database "/opt/altman/altman.db" "/home/user/altman.db" fresh_home in
  logged r = [] /\
  files (st r) !! "/home/user/altman.db" = Some [Byte.x53; Byte.x51; Byte.x4c].
Proof.
  cbv zeta.
  assert (Hsilent :
    logged (initialize_database "/opt/altman/altman.db" "/home/user/altman.db" fresh_home) = [])
    by (vm_compute; reflexivity).
  split; [exact Hsilent|].
  destruct (initialize_database_target
              "/opt/altman/altman.db" "/home/user/altman.db" fresh_home)
    as (_ & Hpost & _).
  destruct (Hpost Hsilent) as (-> & _). vm_compute. reflexivity.
Defined.

End BootstrapExamples.

(** ** The connection *)

Section ConnectionFacts.
Import Sql QtSql database_manager DataManager.

(** Binding the values one by one appends them, in order. *)
Lemma for_each_addBindValue (vs : list value) (c : connection) :
  for_each vs query_addBindValue c
  = Run (Returned tt)
        (Connection (can_open c) (io_error c) (isOpen c) (database c) (prepared c)
                    (boundValues c ++ vs) (lastError c)
                    (calls c ++ (AddBindValue <$> vs)))
        [].
Proof.
  revert c. induction vs as [|v vs IH]; intros c.
  - destruct c. cbn. unfold py_ret. rewrite !app_nil_r. reflexivity.
  - cbn [for_each]. unfold py_bind. cbn. rewrite IH. cbn.
    rewrite <- !app_assoc. reflexivity.
Qed.

(** Only the connection's state, environment and database decide what a
    statement does. *)
Lemma run_statement_after_binding (sql sql' : string) (vs vs' : list value)
    (c : connection) :
  run_statement sql vs (after_binding sql' vs' c) = run_statement sql vs c.
Proof. reflexivity. Qed.

(** The body of the [try] statement, case by case. *)
Lemma insert_attempt_run (sql : string) (vs : list value) (c : connection) :
  insert_attempt sql vs c
  = if decide (count "?"%char sql ≠ length vs) then
      Run (Raised (ValueError (mismatch_message (count "?"%char sql) (length vs))))
          (after_binding sql vs c) []
    else
      match run_statement sql vs c with
      | Done db =>
          Run (Returned tt)
              (set_lastError "" (set_database db (record ExecPrepared (after_binding sql vs c))))
              []
      | Failed e =>
          Run (Returned tt)
              (set_lastError e (record ExecPrepared (after_binding sql vs c)))
              [Log ERROR ("Error inserting data: altman_refined_table - " ++ e)]
      end.
Proof.
  unfold insert_attempt.
  erewrite py_bind_returned by reflexivity.
  erewrite py_bind_returned by apply for_each_addBindValue.
  cbn [can_open io_error isOpen database prepared boundValues lastError calls
       set_query record app].
  rewrite <- app_assoc. cbn [app]. fold (after_binding sql vs c).
  destruct (decide (count "?"%char sql ≠ length vs)) as [Hne|Heq].
  - reflexivity.
  - unfold py_bind, query_exec_prepared.
    cbn [prepared boundValues after_binding]. fold (after_binding sql vs c).
    rewrite run_statement_after_binding.
    destruct (run_statement sql vs c) as [db|e]; reflexivity.
Qed.

(** The [try] statement of [insert_into_altman_table], case by case. *)
Lemma insert_statement_run (sql : string) (vs : list value) (c : connection) :
  insert_statement sql vs c
  = if decide (count "?"%char sql ≠ length vs) then
      Run (Returned tt) (after_binding sql vs c)
          [Log ERROR ("ValueError altman_refined_table: "
                      ++ mismatch_message (count "?"%char sql) (length vs))]
    else
      match run_statement sql vs c with
      | Done db =>
          Run (Returned tt)
              (set_lastError "" (set_database db (record ExecPrepared (after_binding sql vs c))))
              []
      | Failed e =>
          Run (Returned tt)
              (set_lastError e (record ExecPrepared (after_binding sql vs c)))
              [Log ERROR ("Error inserting data: altman_refined_table - " ++ e)]
      end.
Proof.
  unfold insert_statement, try_except. rewrite insert_attempt_run.
  destruct (decide (count "?"%char sql ≠ length vs)) as [Hne|Heq].
  - reflexivity.
  - destruct (run_statement sql vs c) as [db|e]; reflexivity.
Qed.


(** *** The two statements of the application *)

Lemma parse_altman_create_sql :
  parse altman_create_sql = Some (CreateTableIfNotExists altman_refined_table altman_columns).
Proof. vm_compute. reflexivity. Qed.

Lemma parse_altman_insert_sql :
  parse altman_insert_sql
  = Some (InsertInto altman_refined_table
            ["altman_date"; "altman_time"; "altman_question"; "altman_question_2";
             "altman_question_3"; "altman_question_4"; "altman_question_5";
             "altmans_summary"] 8).
Proof. vm_compute. reflexivity. Qed.

Lemma count_altman_insert_sql : count "?"%char altman_insert_sql = 8%nat.
Proof. vm_compute. reflexivity. Qed.

Lemma has_autoincrement_declared (t : table) :
  columns t = altman_columns -> has_autoincrement t = true.
Proof. intros H. unfold has_autoincrement. rewrite H. reflexivity. Qed.

(** In the declared table the next key is one more than the largest key
    the table holds or ever held. *)
Lemma new_rowid_declared (t : table) (id : Z) :
  columns t = altman_columns ->
  new_rowid t = Some id ->
  id = Z.max (max_id t) (sequence t) + 1.
Proof.
  intros Hcols. unfold new_rowid, max_id.
  rewrite (has_autoincrement_declared t Hcols).
  destruct (largest_rowid (rows t)) as [m|]; cbn.
  - destruct (decide (m = MAX_ROWID)); [discriminate|].
    destruct (decide (sequence t = MAX_ROWID)); [discriminate|].
    intros [= <-]. lia.
  - destruct (decide (sequence t = MAX_ROWID)); [discriminate|].
    intros [= <-]. lia.
Qed.

(** On a ready connection the insert statement with the eight values of a
    submission appends that submission under the next key. *)
Lemma run_insert_ready (c : connection) (t : table) (date time : string)
    (a1 a2 a3 a4 a5 summary : Z) :
  ready c t ->
  run_statement altman_insert_sql (bind_values date time a1 a2 a3 a4 a5 summary) c
  = Done (<[altman_refined_table :=
              Table altman_columns
                    (rows t ++ [submission (Z.max (max_id t) (sequence t) + 1)
                                           date time a1 a2 a3 a4 a5 summary])
                    (Z.max (max_id t) (sequence t) + 1)]> (database c)).
Proof.
  intros (Hopen & Hio & Htable & Hcols & [id Hid]).
  unfold run_statement. rewrite Hopen, Hio, parse_altman_insert_sql.
  cbn [execute]. rewrite Htable.
  rewrite Hid, (has_autoincrement_declared t Hcols).
  rewrite (new_rowid_declared t id Hcols Hid) in *.
  unfold new_row. rewrite !Hcols.
  vm_compute decide. reflexivity.
Qed.

End ConnectionFacts.

(** ** The schema *)

Section Schema.
Import Sql QtSql database_manager DataManager.

Lemma run_create (c : connection) :
  run_statement altman_create_sql [] c
  = if isOpen c then
      match io_error c with
      | Some e => Failed e
      | None =>
          Done (match database c !! altman_refined_table with
                | Some _ => database c
                | None => <[altman_refined_table := Table altman_columns [] 0]> (database c)
                end)
      end
    else Failed "Driver not loaded".
Proof.
  unfold run_statement. rewrite parse_altman_create_sql. cbn [execute].
  rewrite decide_True by reflexivity.
  destruct (isOpen c); [|reflexivity].
  destruct (io_error c); [reflexivity|].
  destruct (database c !! altman_refined_table); reflexivity.
Qed.

Lemma setup_altman_table_run (c : connection) :
  setup_altman_table c
  = match run_statement altman_create_sql [] c with
    | Done db =>
        Run (Returned tt)
            (set_lastError "" (set_database db (record (Exec altman_create_sql) c))) []
    | Failed e =>
        Run (Returned tt) (set_lastError e (record (Exec altman_create_sql) c))
            [Log ERROR "Error creating table: altman_refined_table"]
    end.
Proof.
  unfold setup_altman_table, py_bind, query_exec.
  change (run_statement altman_create_sql [] (record (Exec altman_create_sql) c))
    with (run_statement altman_create_sql [] c).
  destruct (run_statement altman_create_sql [] c); reflexivity.
Qed.

(** What the database holds after [setup_altman_table]. *)
Lemma database_after_setup (c : connection) :
  database (st (setup_altman_table c))
  = if isOpen c then
      match io_error c, database c !! altman_refined_table with
      | None, None => <[altman_refined_table := Table altman_columns [] 0]> (database c)
      | _, _ => database c
      end
    else database c.
Proof.
  rewrite setup_altman_table_run, run_create.
  destruct (isOpen c); [|reflexivity].
  destruct (io_error c); [reflexivity|].
  destruct (database c !! altman_refined_table); reflexivity.
Qed.


Lemma setup_altman_table_returns (c : connection) :
  out (setup_altman_table c) = Returned tt.
Proof.
  rewrite setup_altman_table_run.
  destruct (run_statement altman_create_sql [] c); reflexivity.
Qed.


(** Tables that are there stay as they are, columns and rows. *)
Lemma setup_altman_table_keeps (c : connection) (name : string) (t : table) :
  database c !! name = Some t ->
  database (st (setup_altman_table c)) !! name = Some t.
Proof.
  intros Hlookup. rewrite database_after_setup.
  destruct (isOpen c); [|exact Hlookup].
  destruct (io_error c); [exact Hlookup|].
  destruct (database c !! altman_refined_table) eqn:Htable; [exact Hlookup|].
  rewrite lookup_insert_ne; [exact Hlookup|].
  intros <-. congruence.
Qed.

(** [DataManager.__init__] on a machine where the database opens: the
    connection is open afterwards and the table is there. *)
Lemma DataManager_init_opens (db_name : string) (c : connection) :
  can_open c = true ->
  let c' := st (__init__ db_name c) in
  out (__init__ db_name c) = Returned tt /\
  isOpen c' = true /\ io_error c' = io_error c /\
  (Close ∉ calls c -> Close ∉ calls c') /\
  database c'
  = match io_error c, database c !! altman_refined_table with
    | None, None => <[altman_refined_table := Table altman_columns [] 0]> (database c)
    | _, _ => database c
    end.
Proof.
  intros Hcan. destruct c as [can io op db sql vs err cs]. cbn in Hcan. subst can.
  unfold __init__, try_except, setup_tables.
  erewrite py_bind_returned by reflexivity.
  erewrite py_bind_returned by reflexivity.
  erewrite py_bind_returned by reflexivity.
  erewrite py_bind_returned by reflexivity.
  erewrite py_bind_returned by reflexivity.
  erewrite py_bind_returned by reflexivity.
  cbn [negb app st out logged modify record set_query set_isOpen db_open db_addDatabase
       db_setDatabaseName can_open io_error isOpen database prepared boundValues
       lastError calls py_ret logger_info].
  rewrite setup_altman_table_run, run_create. cbn [isOpen io_error database].
  destruct io as [e|]; cbn.
  - repeat split. intros Hcs Hin. apply Hcs.
    rewrite !elem_of_app, !list_elem_of_singleton in Hin.
    destruct Hin as [[[[Hin|Hin]|Hin]|Hin]|Hin]; (exact Hin || discriminate Hin).
  - destruct (db !! altman_refined_table); cbn; repeat split; intros Hcs Hin; apply Hcs;
      rewrite !elem_of_app, !list_elem_of_singleton in Hin;
      destruct Hin as [[[[Hin|Hin]|Hin]|Hin]|Hin]; (exact Hin || discriminate Hin).
Qed.




End Schema.

(** ** Insertion *)

Section Insertion.
Import Sql QtSql database_manager DataManager.

Lemma insert_into_altman_table_ready (c : connection) (t : table) (date time : string)
    (a1 a2 a3 a4 a5 summary : Z) :
  ready c t ->
  let id := Z.max (max_id t) (sequence t) + 1 in
  let table' :=
    Table altman_columns
          (rows t ++ [submission id date time a1 a2 a3 a4 a5 summary]) id in
  insert_into_altman_table date time a1 a2 a3 a4 a5 summary c
  = Run (Returned tt)
        (set_lastError ""
           (set_database (<[altman_refined_table := table']> (database c))
              (record ExecPrepared
                 (after_binding altman_insert_sql
                    (bind_values date time a1 a2 a3 a4 a5 summary) c))))
        [].
Proof.
  intros Hready id table'. unfold insert_into_altman_table.
  rewrite insert_statement_run, count_altman_insert_sql.
  cbn [bind_values length]. rewrite decide_False by (intros H; apply H; reflexivity).
  fold (bind_values date time a1 a2 a3 a4 a5 summary).
  rewrite (run_insert_ready c t date time a1 a2 a3 a4 a5 summary Hready).
  reflexivity.
Qed.

(** A [DataManager] built where the database opens, on storage that works
    and a database without the table, can store a submission. *)
Lemma ready_after_init (db_name : string) (c : connection) :
  can_open c = true -> io_error c = None ->
  database c !! altman_refined_table = None ->
  ready (st (__init__ db_name c)) (Table altman_columns [] 0).
Proof.
  intros Hcan Hio Htable.
  destruct (DataManager_init_opens db_name c Hcan) as (_ & Hopen & Hio' & _ & Hdb).
  rewrite Hio, Htable in Hdb. unfold ready.
  rewrite Hopen, Hio', Hio, Hdb, lookup_insert_eq.
  repeat split. exists 1. reflexivity.
Qed.


(** The state [after_delete] is what the application reaches: three
    submissions stored on a new database, then the third one deleted. *)
Lemma after_delete_reachable :
  let c1 := st (insert_into_altman_table "2024-01-01" "08:00" 1 0 0 0 0 1 new_database) in
  let c2 := st (insert_into_altman_table "2024-01-02" "08:00" 0 2 0 0 0 2 c1) in
  let c3 := st (insert_into_altman_table "2024-01-03" "08:00" 0 0 3 0 0 3 c2) in
  delete_row altman_refined_table 3 (database c3) = database after_delete.
Proof. vm_compute. reflexivity. Qed.






End Insertion.

(** ** The parameter-count guard *)

Section Guard.
Import Sql QtSql database_manager DataManager.

(** C3: in the [try] statement of [insert_into_altman_table] the number of
    placeholders in the statement text is compared with the number of bound
    values before the statement is executed.  Whenever the two differ, the
    statement is prepared and the values are bound but nothing is executed:
    the database is unchanged, no row is inserted, and the mismatch is
    reported as one logged ValueError; the call returns. *)
Theorem mismatch_is_logged_and_nothing_executed (sql : string) (vs : list value)
    (c : connection) :
  count "?"%char sql ≠ length vs ->
  let r := insert_statement sql vs c in
  out r = Returned tt /\
  database (st r) = database c /\
  calls (st r) = (calls c ++ Prepare sql :: (AddBindValue <$> vs))%list /\
  (ExecPrepared ∉ Prepare sql :: (AddBindValue <$> vs)) /\
  logged r = [Log ERROR ("ValueError altman_refined_table: "
                         ++ mismatch_message (count "?"%char sql) (length vs))].
Proof.
  intros Hne r. subst r. rewrite insert_statement_run, decide_True by exact Hne.
  cbn [out st logged after_binding database calls]. repeat split.
  intros Hin. apply elem_of_cons in Hin as [Hin|Hin]; [discriminate|].
  apply list_elem_of_fmap in Hin as (v & Hv & _). discriminate.
Qed.

Lemma mismatch_is_logged_and_nothing_executed_witness :
  count "?"%char seven_placeholders ≠ length (bind_values "2024-01-01" "10:00" 1 2 0 3 4 10) /\
  database (st (insert_statement seven_placeholders
                   (bind_values "2024-01-01" "10:00" 1 2 0 3 4 10) new_database))
  = database new_database.
Proof.
  assert (Hne : count "?"%char seven_placeholders
                ≠ length (bind_values "2024-01-01" "10:00" 1 2 0 3 4 10))
    by (vm_compute; discriminate).
  split; [exact Hne|].
  exact (proj1 (proj2
    (mismatch_is_logged_and_nothing_executed seven_placeholders
       (bind_values "2024-01-01" "10:00" 1 2 0 3 4 10) new_database Hne))).
Defined.

(** C9: in [insert_into_altman_table] the guard never fires.  The statement
    text holds exactly 8 placeholders and exactly 8 values are bound,
    whatever the arguments; so the body of the [try] statement never raises,
    no ValueError is logged, and the prepared statement is always executed,
    once, after the eight values were bound. *)
Theorem guard_never_fires (c : connection) (date time : string)
    (a1 a2 a3 a4 a5 summary : Z) :
  let vs := bind_values date time a1 a2 a3 a4 a5 summary in
  let r := insert_into_altman_table date time a1 a2 a3 a4 a5 summary c in
  count "?"%char altman_insert_sql = 8%nat /\
  length vs = 8%nat /\
  out (insert_attempt altman_insert_sql vs c) = Returned tt /\
  calls (st r)
  = (calls c ++ Prepare altman_insert_sql :: (AddBindValue <$> vs) ++ [ExecPrepared])%list /\
  (forall text, Log ERROR ("ValueError altman_refined_table: " ++ text) ∉ logged r).
Proof.
  intros vs r. subst r.
  split; [apply count_altman_insert_sql|]. split; [reflexivity|].
  unfold insert_into_altman_table. fold vs.
  rewrite insert_attempt_run, insert_statement_run, count_altman_insert_sql.
  change (length vs) with 8%nat.
  rewrite !decide_False by (intros H; apply H; reflexivity).
  destruct (run_statement altman_insert_sql vs c) as [db|e];
    cbn [out st logged calls set_lastError set_database record after_binding].
  - repeat split.
    + rewrite <- app_assoc. reflexivity.
    + intros text Hin. apply elem_of_nil in Hin. exact Hin.
  - repeat split.
    + rewrite <- app_assoc. reflexivity.
    + intros text Hin. apply list_elem_of_singleton in Hin. discriminate.
Qed.

End Guard.

(** ** Failures stay inside the operation *)

Section Failures.
Import Sql QtSql database_manager DataManager.


End Failures.

(** ** The close event *)

Section Closing.
Import Sql QtSql database_manager main_window main_window.MainWindow.

Lemma closeEvent_run (w : window) :
  closeEvent w
  = Run (Returned tt)
        (Window (ui w) (db_manager w)
                (<["windowState" := windowState w]>
                   (<["geometry" := geometry w]> (settings w)))
                (geometry w) (windowState w))
        [].
Proof. reflexivity. Qed.

(** Building the window builds the [DataManager] and leaves its connection
    to it. *)
Lemma MainWindow_init_db_manager (target_db_path : string) (w : window) :
  db_manager (st (__init__ target_db_path w))
  = st (DataManager.__init__ target_db_path (db_manager w)).
Proof.
  unfold __init__. set (build := DataManager.__init__ target_db_path).
  unfold py_bind, zoom.
  destruct (build (db_manager w)) as [[[]|e] c l]; reflexivity.
Qed.

(** C7, evaluated: [closeEvent] saves the window's state and leaves the
    connection as it finds it.  So for every window built where the
    database opens, the connection is open after construction and still
    open after the close event, and no call closed it.  On [new_window] the
    calls made are one [open] and the table's creation, and none after. *)
Theorem closeEvent_leaves_the_connection_open :
  (forall w : window, db_manager (st (closeEvent w)) = db_manager w) /\
  (forall (target_db_path : string) (w : window),
     can_open (db_manager w) = true ->
     Close ∉ calls (db_manager w) ->
     let closed := st (closeEvent (st (__init__ target_db_path w))) in
     isOpen (db_manager closed) = true /\ Close ∉ calls (db_manager closed)) /\
  (let built := st (__init__ "/home/user/altman.db" new_window) in
   let closed := st (closeEvent built) in
   calls (db_manager closed)
   = [AddDatabase "QSQLITE"; SetDatabaseName "/home/user/altman.db"; Open;
      Exec DataManager.altman_create_sql] /\
   isOpen (db_manager built) = true /\
   isOpen (db_manager closed) = true).
Proof.
  split; [|split].
  - intros w. rewrite closeEvent_run. reflexivity.
  - intros target_db_path w Hcan Hcalls closed. subst closed.
    rewrite closeEvent_run. cbn [st db_manager].
    rewrite MainWindow_init_db_manager.
    destruct (DataManager_init_opens target_db_path (db_manager w) Hcan)
      as (_ & Hopen & _ & Hclose & _).
    split; [exact Hopen|exact (Hclose Hcalls)].
  - vm_compute. repeat split; reflexivity.
Qed.

(** [close_database], had it been called, would have closed it. *)
Lemma close_database_closes (c : connection) :
  isOpen (st (close_database c)) = false.
Proof.
  unfold close_database, try_except, py_bind, db_isOpen, db_close, logger_info. cbn.
  destruct (isOpen c) eqn:Hopen; cbn; [reflexivity|exact Hopen].
Qed.

End Closing.

(** * Further properties *)

(** A [try] statement whose body returns is its body. *)
Lemma try_except_returned {S A : Type} (body : py S A) (handler : exn -> py S A)
    (s s' : S) (a : A) (l : list log_entry) :
  body s = Run (Returned a) s' l -> try_except body handler s = Run (Returned a) s' l.
Proof. intros H. unfold try_except. rewrite H. reflexivity. Qed.

(** ** Navigation *)

Section Navigation.
Import QtWidgets master_navigation main_window_pages.

Lemma mod_step_back (n i : Z) : 0 <= i < n -> ((i + 1) mod n - 1) mod n = i.
Proof.
  intros H. destruct (decide (i + 1 = n)) as [Heq|Hne].
  - rewrite Heq, Z_mod_same_full. change (0 - 1) with (-1).
    symmetry. apply (Z.mod_unique (-1) n (-1) i); lia.
  - rewrite (Z.mod_small (i + 1) n) by lia.
    replace (i + 1 - 1) with i by lia. apply Z.mod_small. lia.
Qed.

Lemma mod_step_forth (n i : Z) : 0 <= i < n -> ((i - 1) mod n + 1) mod n = i.
Proof.
  intros H. destruct (decide (i = 0)) as [Heq|Hne].
  - subst i. change (0 - 1) with (-1).
    rewrite <- (Z.mod_unique (-1) n (-1) (n - 1)) by lia.
    replace (n - 1 + 1) with n by lia. apply Z_mod_same_full.
  - rewrite (Z.mod_small (i - 1) n) by lia.
    replace (i - 1 + 1) with i by lia. apply Z.mod_small. lia.
Qed.

(** [next_page] and [prev_page], case by case. *)
Lemma next_page_run (w : shell) :
  next_page w
  = let s := altmanQuestionStack w in
    if decide (pages s = 0) then
      Run (Returned tt) w [Log ERROR "Error in next_page: integer modulo by zero"]
    else
      Run (Returned tt)
          (set_altmanQuestionStack
             (st (stack_setCurrentIndex ((current s + 1) mod pages s) s)) w)
          [].
Proof.
  destruct w as [m [n i] size]. cbv zeta.
  unfold next_page, try_except, py_bind, on_altmanQuestionStack, zoom, py_mod.
  cbn. destruct (decide (n = 0)) as [Hzero|Hpages]; cbn; [reflexivity|].
  unfold stack_setCurrentIndex. cbn.
  destruct (decide (0 <= (i + 1) mod n < n)); reflexivity.
Qed.

Lemma prev_page_run (w : shell) :
  prev_page w
  = let s := altmanQuestionStack w in
    if decide (pages s = 0) then
      Run (Returned tt) w [Log ERROR "Error in prev_page: integer modulo by zero"]
    else
      Run (Returned tt)
          (set_altmanQuestionStack
             (st (stack_setCurrentIndex ((current s - 1) mod pages s) s)) w)
          [].
Proof.
  destruct w as [m [n i] size]. cbv zeta.
  unfold prev_page, try_except, py_bind, on_altmanQuestionStack, zoom, py_mod.
  cbn. destruct (decide (n = 0)) as [Hzero|Hpages]; cbn; [reflexivity|].
  unfold stack_setCurrentIndex. cbn.
  destruct (decide (0 <= (i - 1) mod n < n)); reflexivity.
Qed.

(** On a stack that shows one of its pages, a step lands on a page. *)
Lemma next_page_shown (m : stacked) (n i : Z) (size : option (Z * Z)) :
  0 <= i < n ->
  next_page (Shell m (Stacked n i) size)
  = Run (Returned tt) (Shell m (Stacked n ((i + 1) mod n)) size) [].
Proof.
  intros H. rewrite next_page_run. cbv zeta. cbn [altmanQuestionStack pages current].
  rewrite decide_False by lia.
  unfold stack_setCurrentIndex. cbn [pages].
  rewrite decide_True by (apply Z.mod_pos_bound; lia). reflexivity.
Qed.

Lemma prev_page_shown (m : stacked) (n i : Z) (size : option (Z * Z)) :
  0 <= i < n ->
  prev_page (Shell m (Stacked n i) size)
  = Run (Returned tt) (Shell m (Stacked n ((i - 1) mod n)) size) [].
Proof.
  intros H. rewrite prev_page_run. cbv zeta. cbn [altmanQuestionStack pages current].
  rewrite decide_False by lia.
  unfold stack_setCurrentIndex. cbn [pages].
  rewrite decide_True by (apply Z.mod_pos_bound; lia). reflexivity.
Qed.

(** X1: on a question stack that shows one of its pages, [prev_page] undoes
    [next_page] and [next_page] undoes [prev_page]: after the two calls the
    window is exactly as before, and nothing was logged, also across the
    wrap from the last page to the first. *)
Theorem next_page_prev_page_round_trip (w : shell) :
  0 <= current (altmanQuestionStack w) < pages (altmanQuestionStack w) ->
  st (prev_page (st (next_page w))) = w /\
  st (next_page (st (prev_page w))) = w /\
  logged (next_page w) = [] /\ logged (prev_page w) = [] /\
  logged (prev_page (st (next_page w))) = [] /\
  logged (next_page (st (prev_page w))) = [].
Proof.
  destruct w as [m [n i] size]. cbn [altmanQuestionStack pages current]. intros H.
  rewrite (next_page_shown m n i size H), (prev_page_shown m n i size H).
  cbn [st logged].
  rewrite (prev_page_shown m n ((i + 1) mod n) size) by (apply Z.mod_pos_bound; lia).
  rewrite (next_page_shown m n ((i - 1) mod n) size) by (apply Z.mod_pos_bound; lia).
  cbn [st logged].
  rewrite (mod_step_back n i H), (mod_step_forth n i H). repeat split.
Qed.

Lemma next_page_prev_page_round_trip_witness :
  0 <= 5 < 6 /\
  st (prev_page (st (next_page (Shell (Stacked 2 0) (Stacked 6 5) None))))
  = Shell (Stacked 2 0) (Stacked 6 5) None.
Proof.
  assert (H : 0 <= 5 < 6) by lia.
  split; [exact H|].
  exact (proj1 (next_page_prev_page_round_trip
                  (Shell (Stacked 2 0) (Stacked 6 5) None) H)).
Defined.

(** [k] steps forward from page [i] of [n]. *)
Lemma times_next_page (k : nat) (m : stacked) (n i : Z) (size : option (Z * Z)) :
  0 <= i < n ->
  times k next_page (Shell m (Stacked n i) size)
  = Run (Returned tt) (Shell m (Stacked n ((i + Z.of_nat k) mod n)) size) [].
Proof.
  revert i. induction k as [|k IH]; intros i H.
  - cbn [times]. unfold py_ret. rewrite Z.add_0_r, Z.mod_small by lia. reflexivity.
  - cbn [times].
    erewrite py_bind_returned by (apply next_page_shown; exact H).
    rewrite IH by (apply Z.mod_pos_bound; lia). cbn [out st logged].
    rewrite Zplus_mod_idemp_l.
    replace (i + 1 + Z.of_nat k) with (i + Z.of_nat (S k)) by lia.
    reflexivity.
Qed.

(** X2: on a question stack of [n] pages that shows page [i], [k] calls of
    [next_page] in a row show page [(i + k) mod n] and log nothing; so [n]
    calls go once around and show page [i] again. *)
Theorem next_page_goes_around (k : nat) (w : shell) :
  let s := altmanQuestionStack w in
  0 <= current s < pages s ->
  st (times k next_page w)
  = set_altmanQuestionStack (Stacked (pages s) ((current s + Z.of_nat k) mod pages s)) w /\
  logged (times k next_page w) = [] /\
  st (times (Z.to_nat (pages s)) next_page w) = w.
Proof.
  destruct w as [m [n i] size]. cbv zeta. cbn [altmanQuestionStack pages current].
  intros H. rewrite !times_next_page by exact H. cbn [st logged].
  split; [reflexivity|]. split; [reflexivity|].
  rewrite Z2Nat.id by lia.
  replace (i + n) with (i + 1 * n) by lia.
  rewrite Z_mod_plus_full, Z.mod_small by lia.
  reflexivity.
Qed.

Lemma next_page_goes_around_witness :
  0 <= 4 < 6 /\
  st (times 3 next_page (Shell (Stacked 2 0) (Stacked 6 4) None))
  = Shell (Stacked 2 0) (Stacked 6 1) None.
Proof.
  assert (H : 0 <= 4 < 6) by lia.
  split; [exact H|].
  exact (proj1 (next_page_goes_around 3 (Shell (Stacked 2 0) (Stacked 6 4) None) H)).
Defined.

Lemma go_home_run (w : shell) :
  go_home w
  = Run (Returned tt)
        (set_altmanQuestionStack (st (stack_setCurrentIndex 0 (altmanQuestionStack w))) w) [].
Proof.
  unfold go_home, try_except, on_altmanQuestionStack, zoom, stack_setCurrentIndex.
  destruct (decide (0 <= 0 < pages (altmanQuestionStack w))); reflexivity.
Qed.

Lemma see_measure_run (w : shell) :
  see_measure w
  = Run (Returned tt)
        (set_altmanQuestionStack (st (stack_setCurrentIndex 5 (altmanQuestionStack w))) w) [].
Proof.
  unfold see_measure, try_except, on_altmanQuestionStack, zoom, stack_setCurrentIndex.
  destruct (decide (0 <= 5 < pages (altmanQuestionStack w))); reflexivity.
Qed.

(** Setting an index keeps a stack in a state Qt can be in. *)
Lemma stack_setCurrentIndex_ok (index : Z) (s : stacked) :
  stack_ok s ->
  stack_ok (st (stack_setCurrentIndex index s)) /\
  pages (st (stack_setCurrentIndex index s)) = pages s.
Proof.
  intros Hok. unfold stack_setCurrentIndex.
  destruct (decide (0 <= index < pages s)); cbn [st]; [|split; [exact Hok|reflexivity]].
  split; [|reflexivity]. right. cbn [pages current]. lia.
Qed.

(** X3: [next_page], [prev_page], [go_home] and [see_measure] never raise,
    whatever the question stack holds, and they keep it sound: the number
    of pages stays, the index shown stays a page of the stack (or -1 on a
    stack without pages), and the main stack and the window's size are left
    alone. *)
Theorem navigation_keeps_the_stack_sound (w : shell) :
  stack_ok (altmanQuestionStack w) ->
  Forall (fun step : py shell unit =>
            out (step w) = Returned tt /\
            stack_ok (altmanQuestionStack (st (step w))) /\
            pages (altmanQuestionStack (st (step w))) = pages (altmanQuestionStack w) /\
            mainStack (st (step w)) = mainStack w /\
            fixedSize (st (step w)) = fixedSize w)
         [next_page; prev_page; go_home; see_measure].
Proof.
  intros Hok.
  pose proof (fun index => stack_setCurrentIndex_ok index (altmanQuestionStack w) Hok)
    as Hset.
  constructor; [|constructor; [|constructor; [|constructor; [|constructor]]]].
  - rewrite next_page_run. cbv zeta.
    destruct (decide (pages (altmanQuestionStack w) = 0)); cbn [out st];
      [repeat split; exact Hok|].
    destruct (Hset ((current (altmanQuestionStack w) + 1) mod pages (altmanQuestionStack w)))
      as [H1 H2].
    repeat split; assumption.
  - rewrite prev_page_run. cbv zeta.
    destruct (decide (pages (altmanQuestionStack w) = 0)); cbn [out st];
      [repeat split; exact Hok|].
    destruct (Hset ((current (altmanQuestionStack w) - 1) mod pages (altmanQuestionStack w)))
      as [H1 H2].
    repeat split; assumption.
  - rewrite go_home_run. cbn [out st]. destruct (Hset 0) as [H1 H2].
    repeat split; assumption.
  - rewrite see_measure_run. cbn [out st]. destruct (Hset 5) as [H1 H2].
    repeat split; assumption.
Qed.

Lemma navigation_keeps_the_stack_sound_witness :
  stack_ok (Stacked 6 5) /\
  stack_ok (altmanQuestionStack (st (next_page (Shell (Stacked 2 0) (Stacked 6 5) None)))).
Proof.
  assert (H : stack_ok (Stacked 6 5)) by (right; cbn; lia).
  split; [exact H|].
  exact (proj1 (proj2 (Forall_inv
    (navigation_keeps_the_stack_sound (Shell (Stacked 2 0) (Stacked 6 5) None) H)))).
Defined.

(** X4: the bounds of the navigation.  On a question stack without pages
    [next_page] and [prev_page] meet a division by zero, which is caught:
    each returns, logs one error and changes nothing, while [go_home] and
    [see_measure] change nothing and log nothing.  [see_measure] shows page
    5 only on a stack of more than five pages; on a shorter stack it
    changes nothing and logs nothing.  [go_home] shows page 0 of every
    stack that has a page. *)
Theorem navigation_at_the_bounds (w : shell) :
  let s := altmanQuestionStack w in
  (pages s = 0 ->
   next_page w = Run (Returned tt) w [Log ERROR "Error in next_page: integer modulo by zero"] /\
   prev_page w = Run (Returned tt) w [Log ERROR "Error in prev_page: integer modulo by zero"] /\
   go_home w = Run (Returned tt) w [] /\
   see_measure w = Run (Returned tt) w []) /\
  (5 < pages s ->
   see_measure w = Run (Returned tt) (set_altmanQuestionStack (Stacked (pages s) 5) w) []) /\
  (pages s <= 5 -> see_measure w = Run (Returned tt) w []) /\
  (0 < pages s ->
   go_home w = Run (Returned tt) (set_altmanQuestionStack (Stacked (pages s) 0) w) []).
Proof.
  destruct w as [m [n i] size]. cbv zeta. cbn [altmanQuestionStack pages].
  rewrite next_page_run, prev_page_run, go_home_run, see_measure_run. cbv zeta.
  unfold stack_setCurrentIndex, set_altmanQuestionStack.
  cbn [altmanQuestionStack pages current mainStack fixedSize].
  split; [|split; [|split]].
  - intros ->. repeat split.
  - intros H. rewrite decide_True by lia. reflexivity.
  - intros H. rewrite decide_False by lia. reflexivity.
  - intros H. rewrite decide_True by lia. reflexivity.
Qed.

(** [change_stack_page], case by case. *)
Lemma change_stack_page_run (index : Z) (s : stacked) :
  change_stack_page index s
  = Run (Returned tt)
        (if decide (0 <= index < pages s) then Stacked (pages s) index else s)
        [Log INFO "Minder Stack Page Change"].
Proof.
  unfold change_stack_page, try_except, py_bind, stack_setCurrentIndex.
  destruct (decide (0 <= index < pages s)); reflexivity.
Qed.

Lemma action_triggered_run (width height page : Z) (switch : py shell unit) (w : shell) :
  switch w = Run (Returned tt) (Shell (mainStack w) (altmanQuestionStack w)
                                       (Some (width, height))) [] ->
  py_bind switch (fun _ => on_mainStack (change_stack_page page)) w
  = Run (Returned tt)
        (Shell (if decide (0 <= page < pages (mainStack w))
                then Stacked (pages (mainStack w)) page else mainStack w)
               (altmanQuestionStack w) (Some (width, height)))
        [Log INFO "Minder Stack Page Change"].
Proof.
  intros Hswitch. erewrite py_bind_returned by exact Hswitch.
  unfold on_mainStack, zoom. cbn [mainStack]. rewrite change_stack_page_run.
  reflexivity.
Qed.

(** X5: what the two menu actions do.  [switchone] and [switchtwo] only fix
    the window's size, to 475 by 170 and to 900 by 460: handing the main
    stack to its own [setCurrentWidget] changes no page.  The page changes
    through [change_stack_page], which the same action runs next: showing
    the exam selects page 0 and showing the table selects page 1 of the
    main stack, when the stack has such a page, and leaves the page as it
    is otherwise; either way the action returns, the question stack is
    untouched, and exactly one line, the page-change notice, is logged. *)
Theorem show_actions_resize_then_change_page (w : shell) :
  switchone w
  = Run (Returned tt) (Shell (mainStack w) (altmanQuestionStack w) (Some (475, 170))) [] /\
  switchtwo w
  = Run (Returned tt) (Shell (mainStack w) (altmanQuestionStack w) (Some (900, 460))) [] /\
  actionShowAltmanExam_triggered w
  = Run (Returned tt)
        (Shell (if decide (0 < pages (mainStack w))
                then Stacked (pages (mainStack w)) 0 else mainStack w)
               (altmanQuestionStack w) (Some (475, 170)))
        [Log INFO "Minder Stack Page Change"] /\
  actionShowAltmanTable_triggered w
  = Run (Returned tt)
        (Shell (if decide (1 < pages (mainStack w))
                then Stacked (pages (mainStack w)) 1 else mainStack w)
               (altmanQuestionStack w) (Some (900, 460)))
        [Log INFO "Minder Stack Page Change"].
Proof.
  assert (Hone : switchone w
                 = Run (Returned tt)
                       (Shell (mainStack w) (altmanQuestionStack w) (Some (475, 170))) [])
    by (destruct w; reflexivity).
  assert (Htwo : switchtwo w
                 = Run (Returned tt)
                       (Shell (mainStack w) (altmanQuestionStack w) (Some (900, 460))) [])
    by (destruct w; reflexivity).
  split; [exact Hone|]. split; [exact Htwo|].
  unfold actionShowAltmanExam_triggered, actionShowAltmanTable_triggered.
  rewrite (action_triggered_run 475 170 0 switchone w Hone).
  rewrite (action_triggered_run 900 460 1 switchtwo w Htwo).
  split.
  - destruct (decide (0 <= 0 < pages (mainStack w))), (decide (0 < pages (mainStack w)));
      try reflexivity; lia.
  - destruct (decide (0 <= 1 < pages (mainStack w))), (decide (1 < pages (mainStack w)));
      try reflexivity; lia.
Qed.

End Navigation.

(** ** Settings *)

Section Settings.
Import QtSql database_manager main_window main_window.MainWindow main_window_pages.

(** The two halves of [restore_state]. *)
Lemma restore_geometry_run (accepts : string -> bool) (handler : exn -> py window unit)
    (w : window) :
  let data := default "" (settings w !! "geometry") in
  try_except
    (data <- settings_value "geometry";; _ <- restoreGeometry accepts data;; py_ret tt)
    handler w
  = Run (Returned tt)
        (if accepts data
         then Window (ui w) (db_manager w) (settings w) data (windowState w) else w)
        [].
Proof.
  cbv zeta. apply try_except_returned.
  erewrite py_bind_returned by reflexivity.
  destruct (accepts (default "" (settings w !! "geometry"))) eqn:Haccepts.
  - erewrite py_bind_returned
      by (unfold restoreGeometry; rewrite Haccepts; reflexivity).
    reflexivity.
  - erewrite py_bind_returned
      by (unfold restoreGeometry; rewrite Haccepts; reflexivity).
    reflexivity.
Qed.

Lemma restore_window_state_run (accepts : string -> bool) (handler : exn -> py window unit)
    (w : window) :
  let data := default "" (settings w !! "windowState") in
  try_except
    (data <- settings_value "windowState";; _ <- restoreState accepts data;; py_ret tt)
    handler w
  = Run (Returned tt)
        (if accepts data
         then Window (ui w) (db_manager w) (settings w) (geometry w) data else w)
        [].
Proof.
  cbv zeta. apply try_except_returned.
  erewrite py_bind_returned by reflexivity.
  destruct (accepts (default "" (settings w !! "windowState"))) eqn:Haccepts.
  - erewrite py_bind_returned
      by (unfold restoreState; rewrite Haccepts; reflexivity).
    reflexivity.
  - erewrite py_bind_returned
      by (unfold restoreState; rewrite Haccepts; reflexivity).
    reflexivity.
Qed.

(** [restore_state], in one step. *)
Lemma restore_state_run (accepts : string -> bool) (w : window) :
  let stored_geometry := default "" (settings w !! "geometry") in
  let stored_state := default "" (settings w !! "windowState") in
  restore_state accepts w
  = Run (Returned tt)
        (Window (ui w) (db_manager w) (settings w)
                (if accepts stored_geometry then stored_geometry else geometry w)
                (if accepts stored_state then stored_state else windowState w))
        [].
Proof.
  cbv zeta. unfold restore_state.
  erewrite py_bind_returned by apply restore_geometry_run.
  rewrite restore_window_state_run. cbv zeta.
  destruct w as [f c s g ws]. cbn [settings geometry windowState ui db_manager].
  destruct (accepts (default "" (s !! "geometry")));
    cbn [out st logged settings geometry windowState ui db_manager app];
    destruct (accepts (default "" (s !! "windowState"))); reflexivity.
Qed.

(** X6: what [closeEvent] saves, [restore_state] brings back.  When a
    window starts with the settings an earlier window left at its close
    event, and Qt accepts what that window had saved, then [restore_state]
    gives the new window the geometry and the state of the earlier one; it
    returns, logs nothing and leaves form, connection and settings as they
    are. *)
Theorem restore_state_after_closeEvent (accepts : string -> bool) (earlier later : window) :
  accepts (geometry earlier) = true ->
  accepts (windowState earlier) = true ->
  settings later = settings (st (closeEvent earlier)) ->
  restore_state accepts later
  = Run (Returned tt)
        (Window (ui later) (db_manager later) (settings later)
                (geometry earlier) (windowState earlier))
        [].
Proof.
  intros Hgeometry Hstate Hsettings.
  rewrite restore_state_run. cbv zeta. rewrite Hsettings, closeEvent_run.
  cbn [st settings].
  rewrite lookup_insert_ne by discriminate.
  rewrite !lookup_insert_eq. cbn [default from_option id].
  rewrite Hgeometry, Hstate. reflexivity.
Qed.

Lemma restore_state_after_closeEvent_witness :
  let accepts := fun data : string => negb (String.eqb data "") in
  let later := Window (form_of 0 0 0 0 0 0) fresh_connection
                      (settings (st (closeEvent new_window))) "100x100" "maximized" in
  accepts (geometry new_window) = true /\
  geometry (st (restore_state accepts later)) = "475x170" /\
  windowState (st (restore_state accepts later)) = "normal".
Proof.
  cbv zeta.
  pose proof (restore_state_after_closeEvent
                (fun data : string => negb (String.eqb data "")) new_window
                (Window (form_of 0 0 0 0 0 0) fresh_connection
                        (settings (st (closeEvent new_window))) "100x100" "maximized")
                eq_refl eq_refl eq_refl) as H.
  split; [reflexivity|]. rewrite H. split; reflexivity.
Defined.

(** X7: on a first start, when the settings hold neither a geometry nor a
    window state, [restore_state] reads an empty byte array for each, Qt
    refuses it, and the window is left exactly as it is; nothing is raised
    and nothing is logged. *)
Theorem restore_state_without_settings (accepts : string -> bool) (w : window) :
  accepts "" = false ->
  settings w !! "geometry" = None ->
  settings w !! "windowState" = None ->
  restore_state accepts w = Run (Returned tt) w [].
Proof.
  intros Hempty Hgeometry Hstate.
  rewrite restore_state_run. cbv zeta. rewrite Hgeometry, Hstate.
  cbn [default from_option]. rewrite Hempty. destruct w. reflexivity.
Qed.

Lemma restore_state_without_settings_witness :
  settings new_window !! "geometry" = None /\
  restore_state (fun data : string => negb (String.eqb data "")) new_window
  = Run (Returned tt) new_window [].
Proof.
  split; [reflexivity|].
  exact (restore_state_without_settings
           (fun data : string => negb (String.eqb data "")) new_window
           eq_refl eq_refl eq_refl).
Defined.

End Settings.

(** ** Slider signals and the summary *)

Section SliderSignals.
Import QtSql database_manager main_window main_window.MainWindow main_window_pages.

(** A [try] statement whose handler only logs always returns. *)
Lemma try_except_returns {S : Type} (body : py S unit) (handler : exn -> py S unit)
    (s : S) :
  (forall e s', out (handler e s') = Returned tt) ->
  out (try_except body handler s) = Returned tt.
Proof.
  intros Hhandler. unfold try_except.
  destruct (body s) as [[[]|e] s' l] eqn:Hbody; cbn [out st]; [reflexivity|].
  apply Hhandler.
Qed.

Lemma sliders_with_slider (q : question) (s : slider) (f : form) :
  slider_of q (with_slider q s f) = s /\
  altmans_summary (with_slider q s f) = altmans_summary f /\
  forall q', q' <> q -> slider_of q' (with_slider q s f) = slider_of q' f.
Proof.
  destruct q; cbn; (split; [reflexivity|]); (split; [reflexivity|]);
    intros [] Hne; try reflexivity; contradiction.
Qed.

Lemma sliders_in_range_questions (f : form) :
  sliders_in_range f
  <-> forall q, minimum (slider_of q f) = 0 /\ maximum (slider_of q f) = 4 /\
                0 <= value (slider_of q f) <= 4.
Proof.
  unfold sliders_in_range, sliders. split.
  - intros H q.
    repeat match goal with
           | H : Forall _ (_ :: _) |- _ => apply Forall_cons in H; destruct H as [? H]
           end.
    destruct q; assumption.
  - intros H. repeat constructor;
      first [apply (H Question1) | apply (H Question2) | apply (H Question3)
            | apply (H Question4) | apply (H Question5)].
Qed.

Lemma summary_in_bounds (f : form) :
  sliders_in_range f -> summary_current f -> 0 <= altmans_summary f <= 20.
Proof.
  intros Hrange Hcurrent. rewrite sliders_in_range_questions in Hrange.
  pose proof (Hrange Question1) as (_ & _ & H1). pose proof (Hrange Question2) as (_ & _ & H2).
  pose proof (Hrange Question3) as (_ & _ & H3). pose proof (Hrange Question4) as (_ & _ & H4).
  pose proof (Hrange Question5) as (_ & _ & H5). cbn [slider_of] in *.
  rewrite Hcurrent, !counted_nonneg by lia. lia.
Qed.

Lemma summary_current_after_update (f : form) :
  summary_current (st (update_altmans_summary f)) /\
  sliders (st (update_altmans_summary f)) = sliders f.
Proof.
  split; [|reflexivity]. unfold summary_current.
  rewrite altmans_summary_after_update. reflexivity.
Qed.

(** One slider set: ranges, values in range and a current summary are
    kept. *)
Lemma slider_set_keeps (q : question) (v : Z) (f : form) :
  sliders_in_range f -> summary_current f ->
  let r := slider_set q v f in
  out r = Returned tt /\ logged r = [] /\
  sliders_in_range (st r) /\ summary_current (st r) /\
  value (slider_of q (st r)) = bound 0 v 4 /\
  (forall q', q' <> q -> slider_of q' (st r) = slider_of q' f).
Proof.
  intros Hrange Hcurrent r. subst r.
  pose proof (proj1 (sliders_in_range_questions f) Hrange) as Hq.
  destruct (Hq q) as (Hmin & Hmax & Hvalue).
  unfold slider_set, py_bind, get. cbn [out st logged].
  destruct (decide (value (setValue v (slider_of q f)) = value (slider_of q f)))
    as [Hsame|Hchanged].
  - cbn [py_ret out st logged]. repeat split; try assumption.
    rewrite <- Hsame. unfold setValue. cbn [value]. rewrite Hmin, Hmax. reflexivity.
  - cbn [modify out st logged app].
    set (f' := with_slider q (setValue v (slider_of q f)) f).
    destruct (sliders_with_slider q (setValue v (slider_of q f)) f) as (Hq' & _ & Hother).
    fold f' in Hq', Hother.
    assert (Hrange' : sliders_in_range f').
    { apply sliders_in_range_questions. intros q'.
      destruct (decide (q' = q)) as [->|Hne].
      - rewrite Hq'. unfold setValue, bound. cbn [minimum maximum value].
        rewrite Hmin, Hmax. lia.
      - rewrite (Hother q' Hne). apply Hq. }
    rewrite update_altmans_summary_run. cbn [out st logged].
    repeat split.
    + apply sliders_in_range_questions. intros q'.
      apply (proj1 (sliders_in_range_questions f') Hrange' q').
    + apply (summary_current_after_update f').
    + change (value (slider_of q f') = bound 0 v 4).
      rewrite Hq'. unfold setValue. cbn [value]. rewrite Hmin, Hmax. reflexivity.
    + intros q' Hne. change (slider_of q' f' = slider_of q' f). apply Hother, Hne.
Qed.

(** X8: once the sliders range over 0 to 4 and the summary is the one they
    give, every sequence of slider changes keeps it so: after each change
    the slider holds the requested value brought into the range, the other
    sliders are as before, the summary is again the sum of the answers
    above 0 and lies between 0 and 20; nothing is raised or logged. *)
Theorem slider_changes_keep_the_summary_current (moves : list (question * Z)) (f : form) :
  sliders_in_range f -> summary_current f ->
  let r := for_each moves (fun move => slider_set (fst move) (snd move)) f in
  out r = Returned tt /\ logged r = [] /\
  sliders_in_range (st r) /\ summary_current (st r) /\
  0 <= altmans_summary (st r) <= 20.
Proof.
  revert f. induction moves as [|[q v] moves IH]; intros f Hrange Hcurrent r; subst r.
  - cbn [for_each py_ret out st logged]. repeat split; try assumption;
      apply (summary_in_bounds f Hrange Hcurrent).
  - cbn [for_each fst snd].
    destruct (slider_set_keeps q v f Hrange Hcurrent) as (Hout & Hlog & Hrange' & Hcurrent' & _).
    unfold py_bind. rewrite Hout, Hlog. cbn [out st logged app].
    apply (IH (st (slider_set q v f)) Hrange' Hcurrent').
Qed.

Lemma slider_changes_keep_the_summary_current_witness :
  sliders_in_range (form_of 0 2 0 3 0 5) /\ summary_current (form_of 0 2 0 3 0 5) /\
  altmans_summary
    (st (for_each [(Question1, 9); (Question2, 0); (Question5, -1)]
                  (fun move => slider_set (fst move) (snd move))
                  (form_of 0 2 0 3 0 5))) = 7.
Proof.
  assert (Hrange : sliders_in_range (form_of 0 2 0 3 0 5))
    by (apply sliders_in_range_questions; intros []; cbn; lia).
  assert (Hcurrent : summary_current (form_of 0 2 0 3 0 5)) by reflexivity.
  split; [exact Hrange|]. split; [exact Hcurrent|].
  destruct (slider_changes_keep_the_summary_current
              [(Question1, 9); (Question2, 0); (Question5, -1)]
              (form_of 0 2 0 3 0 5) Hrange Hcurrent) as (_ & _ & _ & Hsum & _).
  rewrite Hsum. vm_compute. reflexivity.
Defined.

Lemma DataManager_init_returns (db_name : string) (c : connection) :
  out (DataManager.__init__ db_name c) = Returned tt.
Proof. apply try_except_returns. intros e s'. reflexivity. Qed.

(** The form after [MainWindow.__init__]: the summary is computed first,
    the ranges are applied after. *)
Lemma MainWindow_init_ui (target_db_path : string) (w : window) :
  out (__init__ target_db_path w) = Returned tt /\
  ui (st (__init__ target_db_path w))
  = st (altman_table_commit (st (update_altmans_summary (ui w)))).
Proof.
  unfold __init__. set (build := DataManager.__init__ target_db_path).
  pose proof (DataManager_init_returns target_db_path (db_manager w)) as Hout.
  fold build in Hout.
  unfold py_bind, zoom. cbn [out st].
  destruct (build (db_manager w)) as [o c l]. cbn [out] in Hout. subst o.
  split; reflexivity.
Qed.

(** X9: [MainWindow.__init__] computes the summary before
    [altman_table_commit] gives the sliders their range.  After
    construction every slider ranges over 0 to 4 and holds its initial
    value brought into that range, while the summary is the sum of the
    initial values above 0.  So the summary shown is the one the sliders
    give whenever the initial values already lay between 0 and 4, and
    construction never raises. *)
Theorem summary_after_construction (target_db_path : string) (w : window) :
  let f := ui (st (__init__ target_db_path w)) in
  out (__init__ target_db_path w) = Returned tt /\
  sliders f = setRange 0 4 <$> sliders (ui w) /\
  sliders_in_range f /\
  altmans_summary f
  = counted (value (altman_question (ui w))) + counted (value (altman_question_2 (ui w)))
    + counted (value (altman_question_3 (ui w))) + counted (value (altman_question_4 (ui w)))
    + counted (value (altman_question_5 (ui w))) /\
  (Forall (fun s => 0 <= value s <= 4) (sliders (ui w)) -> summary_current f).
Proof.
  destruct (MainWindow_init_ui target_db_path w) as [Hout ->]. cbv zeta.
  split; [exact Hout|].
  rewrite update_altmans_summary_run. cbn [st].
  unfold altman_table_commit, modify. cbn [st].
  unfold altmans_summary_setValue. cbn [altman_question altman_question_2 altman_question_3
    altman_question_4 altman_question_5 altmans_summary].
  split; [reflexivity|]. split; [|split].
  - apply sliders_in_range_questions. intros []; unfold setRange, bound;
      cbn [slider_of altman_question altman_question_2 altman_question_3
           altman_question_4 altman_question_5 minimum maximum value]; lia.
  - rewrite py_sum_filter_counted. unfold sliders. cbn [foldr]. lia.
  - intros Hinitial. unfold summary_current, sliders in *.
    repeat match goal with
           | H : Forall _ (_ :: _) |- _ => apply Forall_cons in H; destruct H as [? H]
           end.
    cbn [altman_question altman_question_2 altman_question_3 altman_question_4
         altman_question_5 altmans_summary].
    rewrite py_sum_filter_counted. unfold sliders, setRange, bound. cbn [foldr value].
    rewrite !Z.min_r, !Z.max_r by lia. lia.
Qed.

Lemma summary_after_construction_witness :
  Forall (fun s => 0 <= value s <= 4) (sliders (ui new_window)) /\
  summary_current (ui (st (__init__ "/home/user/altman.db" new_window))).
Proof.
  assert (H : Forall (fun s => 0 <= value s <= 4) (sliders (ui new_window)))
    by (unfold new_window, form_of, sliders; cbn; repeat constructor; cbn; lia).
  split; [exact H|].
  exact (proj2 (proj2 (proj2 (proj2
    (summary_after_construction "/home/user/altman.db" new_window)))) H).
Defined.

End SliderSignals.

(** ** More on the DataManager *)

Section DataManagerFacts.
Import Sql QtSql database_manager DataManager.

(** [DataManager.__init__], step by step: the calls it makes, then
    [setup_altman_table] on the connection they leave. *)
Lemma DataManager_init_run (db_name : string) (c : connection) :
  let opening :=
    record Open (record (SetDatabaseName db_name) (record (AddDatabase "QSQLITE") c)) in
  let c' :=
    set_query "" []
      (if can_open c then set_isOpen true opening
       else set_lastError "unable to open database file" opening) in
  __init__ db_name c
  = Run (Returned tt) (st (setup_altman_table c'))
        ((if can_open c then [] else [Log ERROR "Error: Unable to open database"])
         ++ Log INFO "DB INITIALIZING" :: logged (setup_altman_table c')).
Proof.
  destruct c as [can io op db sql vs err cs]. cbv zeta.
  unfold __init__, setup_tables. apply try_except_returned.
  erewrite py_bind_returned by reflexivity.
  erewrite py_bind_returned by reflexivity.
  destruct can.
  - erewrite py_bind_returned by reflexivity.
    erewrite py_bind_returned by reflexivity.
    erewrite py_bind_returned by reflexivity.
    erewrite py_bind_returned by reflexivity.
    cbn [out st logged app negb can_open]. rewrite setup_altman_table_returns.
    reflexivity.
  - erewrite py_bind_returned by reflexivity.
    erewrite py_bind_returned by reflexivity.
    erewrite py_bind_returned by reflexivity.
    erewrite py_bind_returned by reflexivity.
    cbn [out st logged app negb can_open]. rewrite setup_altman_table_returns.
    reflexivity.
Qed.

(** X10: when the database cannot be opened, [DataManager.__init__] does
    not stop: it logs the failed open, goes on to [setup_tables], whose
    statement then fails and is logged as well, and returns.  The
    connection is left closed and the database untouched. *)
Theorem DataManager_init_goes_on_after_failed_open (db_name : string) (c : connection) :
  can_open c = false -> isOpen c = false ->
  let r := __init__ db_name c in
  out r = Returned tt /\
  logged r = [Log ERROR "Error: Unable to open database";
              Log INFO "DB INITIALIZING";
              Log ERROR "Error creating table: altman_refined_table"] /\
  isOpen (st r) = false /\
  database (st r) = database c /\
  calls (st r) = (calls c ++ [AddDatabase "QSQLITE"; SetDatabaseName db_name; Open;
                              Exec altman_create_sql])%list.
Proof.
  intros Hcan Hclosed r. subst r.
  rewrite DataManager_init_run. cbv zeta. rewrite Hcan.
  rewrite setup_altman_table_run, run_create.
  destruct c as [can io op db sql vs err cs]. cbn in Hcan, Hclosed. subst can op.
  cbn. rewrite <- !app_assoc. repeat split.
Qed.

Lemma DataManager_init_goes_on_after_failed_open_witness :
  can_open (Connection false None false ∅ "" [] "" []) = false /\
  database (st (__init__ "/home/user/altman.db" (Connection false None false ∅ "" [] "" [])))
  = ∅.
Proof.
  split; [reflexivity|].
  exact (proj1 (proj2 (proj2 (proj2
    (DataManager_init_goes_on_after_failed_open "/home/user/altman.db"
       (Connection false None false ∅ "" [] "" []) eq_refl eq_refl))))).
Defined.

(** X11: building a [DataManager] never drops or alters what is stored:
    in every environment, each table the database held before, with its
    columns, rows and key counter, is there unchanged afterwards; and a
    database that already holds [altman_refined_table] is left exactly as
    it is. *)
Theorem DataManager_init_keeps_stored_data (db_name : string) (c : connection) :
  (forall name t, database c !! name = Some t ->
                  database (st (__init__ db_name c)) !! name = Some t) /\
  (is_Some (database c !! altman_refined_table) ->
   database (st (__init__ db_name c)) = database c).
Proof.
  rewrite DataManager_init_run. cbv zeta. cbn [st].
  set (c' := set_query "" [] _).
  assert (Hdb : database c' = database c) by (subst c'; destruct (can_open c); reflexivity).
  split.
  - intros name t Hlookup. apply setup_altman_table_keeps. rewrite Hdb. exact Hlookup.
  - intros [t Ht]. rewrite database_after_setup, Hdb, Ht.
    destruct (isOpen c'); [|reflexivity]. destruct (io_error c'); reflexivity.
Qed.

(** X12: [setup_altman_table] logs exactly when its statement fails, that
    is when the connection is closed or the storage reports an error; it
    then logs one error, creates nothing and still returns.  On an open
    connection with working storage it logs nothing and the table is there
    afterwards. *)
Theorem setup_altman_table_logs_exactly_on_failure (c : connection) :
  let r := setup_altman_table c in
  out r = Returned tt /\
  (logged r = [] <-> isOpen c = true /\ io_error c = None) /\
  (logged r <> [] ->
   logged r = [Log ERROR "Error creating table: altman_refined_table"] /\
   database (st r) = database c) /\
  (logged r = [] -> is_Some (database (st r) !! altman_refined_table)).
Proof.
  cbv zeta. split; [apply setup_altman_table_returns|].
  rewrite setup_altman_table_run, run_create.
  destruct (isOpen c); [destruct (io_error c) as [e|]|]; cbn [logged st database set_lastError
    set_database record].
  - split; [split; [discriminate|intros [_ H]; discriminate H]|].
    split; [intros _; split; reflexivity|discriminate].
  - split; [split; [intros _; split; reflexivity|reflexivity]|].
    split; [intros H; contradiction|]. intros _.
    destruct (database c !! altman_refined_table) as [t|] eqn:Ht.
    + rewrite Ht. eauto.
    + rewrite lookup_insert_eq. eauto.
  - split; [split; [discriminate|intros [H _]; discriminate H]|].
    split; [intros _; split; reflexivity|discriminate].
Qed.



(** *** Keys *)


(** No key in the table exceeds the largest. *)
Lemma rowid_le_max_id (t : table) (r : row) :
  r ∈ rows t -> exists m, largest_rowid (rows t) = Some m /\ rowid r <= m.
Proof.
  generalize (rows t) as l. induction l as [|x l IH]; intros Hin.
  - apply elem_of_nil in Hin. contradiction.
  - change (largest_rowid (x :: l))
      with (Some (match largest_rowid l with
                  | Some m => Z.max (rowid x) m
                  | None => rowid x
                  end)).
    eexists. split; [reflexivity|].
    apply elem_of_cons in Hin as [->|Hin].
    + destruct (largest_rowid l); lia.
    + destruct (IH Hin) as (m & -> & Hle). lia.
Qed.





Lemma increasing_snoc (l : list Z) (k : Z) :
  increasing l -> Forall (fun k' => k' < k) l -> increasing (l ++ [k]).
Proof.
  induction l as [|x l IH]; intros Hl Hbelow; cbn [app increasing].
  - split; [constructor|exact I].
  - destruct Hl as [Hx Hl]. apply Forall_cons in Hbelow as [Hxk Hbelow].
    split; [|exact (IH Hl Hbelow)].
    apply Forall_app. split; [exact Hx|]. repeat constructor. exact Hxk.
Qed.

Lemma increasing_NoDup (l : list Z) : increasing l -> NoDup l.
Proof.
  induction l as [|x l IH]; intros Hl; [constructor|].
  destruct Hl as [Hx Hl]. constructor; [|exact (IH Hl)].
  intros Hin. rewrite Forall_forall in Hx. specialize (Hx x Hin). lia.
Qed.

(** X15: keys never repeat and never go back.  When the keys of the
    declared table increase along its rows, a submission that is stored
    gets a key above every key in the table and above every key handed out
    before, so the keys still increase along the rows, and no two rows
    share a key. *)
Theorem insert_keeps_keys_increasing (c : connection) (t : table) (date time : string)
    (a1 a2 a3 a4 a5 summary : Z) :
  ready c t ->
  increasing (keys t) ->
  let r := insert_into_altman_table date time a1 a2 a3 a4 a5 summary c in
  exists t',
    database (st r) !! altman_refined_table = Some t' /\
    keys t' = (keys t ++ [handed_out t + 1])%list /\
    Forall (fun k => k < handed_out t + 1) (keys t) /\
    sequence t < handed_out t + 1 /\
    increasing (keys t') /\ NoDup (keys t').
Proof.
  intros Hready Hsorted r. subst r.
  rewrite (insert_into_altman_table_ready c t _ _ _ _ _ _ _ _ Hready).
  cbv zeta. cbn [st database set_lastError set_database]. rewrite lookup_insert_eq.
  fold (handed_out t). eexists. split; [reflexivity|].
  assert (Hkeys :
    keys (Table altman_columns
                (rows t ++ [submission (handed_out t + 1) date time a1 a2 a3 a4 a5 summary])
                (handed_out t + 1))
    = (keys t ++ [handed_out t + 1])%list)
    by (unfold keys; cbn [rows]; rewrite fmap_app; reflexivity).
  rewrite Hkeys.
  assert (Hbelow : Forall (fun k => k < handed_out t + 1) (keys t)).
  { apply Forall_forall. intros k Hk. unfold keys in Hk.
    apply list_elem_of_fmap in Hk as (row & -> & Hrow).
    destruct (rowid_le_max_id t row Hrow) as (m & Hm & Hle).
    unfold handed_out, max_id. rewrite Hm. cbn. lia. }
  assert (Hsorted' : increasing (keys t ++ [handed_out t + 1]))
    by (apply increasing_snoc; assumption).
  split; [reflexivity|]. split; [exact Hbelow|].
  split; [unfold handed_out; lia|]. split; [exact Hsorted'|].
  apply increasing_NoDup, Hsorted'.
Qed.

Lemma insert_keeps_keys_increasing_witness :
  increasing (keys two_of_three) /\
  exists t',
    database (st (insert_into_altman_table "2024-01-01" "10:00" 1 2 0 3 4 10 after_delete))
      !! altman_refined_table = Some t' /\
    keys t' = [1; 2; 4].
Proof.
  assert (Hready : ready after_delete two_of_three)
    by (unfold ready; repeat split; try (vm_compute; reflexivity);
        eexists; vm_compute; reflexivity).
  assert (Hsorted : increasing (keys two_of_three))
    by (cbn; repeat constructor; lia).
  split; [exact Hsorted|].
  destruct (insert_keeps_keys_increasing after_delete two_of_three
              "2024-01-01" "10:00" 1 2 0 3 4 10 Hready Hsorted)
    as (t' & Hlookup & Hkeys & _).
  exists t'. split; [exact Hlookup|]. rewrite Hkeys. reflexivity.
Defined.

End DataManagerFacts.

(** ** Closing the connection *)

Section ClosingFacts.
Import Sql QtSql database_manager DataManager.

Lemma close_database_run (c : connection) :
  close_database c
  = if isOpen c then
      Run (Returned tt) (set_isOpen false (record Close c))
          [Log INFO "if database is open"; Log INFO "the database is closed successfully"]
    else Run (Returned tt) c [Log INFO "if database is open"].
Proof.
  unfold close_database, try_except, py_bind, db_isOpen, db_close, logger_info.
  cbn [out st logged]. destruct (isOpen c); reflexivity.
Qed.

(** X16: [close_database] closes the connection once and keeps the data.
    It returns, leaves the connection closed and the database as it was,
    and calls [close] exactly when the connection was open, announcing the
    success in the log before the call; a second call in a row makes no
    call and changes nothing.  On the closed connection
    [insert_into_altman_table] stores nothing and logs one error. *)
Theorem close_database_closes_once (c : connection) :
  let r := close_database c in
  out r = Returned tt /\
  isOpen (st r) = false /\
  database (st r) = database c /\
  calls (st r) = (calls c ++ if isOpen c then [Close] else [])%list /\
  logged r = (Log INFO "if database is open"
              :: if isOpen c then [Log INFO "the database is closed successfully"] else []) /\
  close_database (st r) = Run (Returned tt) (st r) [Log INFO "if database is open"] /\
  (forall (date time : string) (a1 a2 a3 a4 a5 summary : Z),
     let r' := insert_into_altman_table date time a1 a2 a3 a4 a5 summary (st r) in
     database (st r') = database c /\ exists text, logged r' = [Log ERROR text]).
Proof.
  cbv zeta. rewrite close_database_run.
  assert (Hinsert : forall c' : connection, isOpen c' = false ->
            forall (date time : string) (a1 a2 a3 a4 a5 summary : Z),
              database (st (insert_into_altman_table date time a1 a2 a3 a4 a5 summary c'))
              = database c' /\
              exists text,
                logged (insert_into_altman_table date time a1 a2 a3 a4 a5 summary c')
                = [Log ERROR text]).
  { intros c' Hclosed date time a1 a2 a3 a4 a5 summary.
    unfold insert_into_altman_table.
    rewrite insert_statement_run, count_altman_insert_sql.
    cbn [bind_values length]. rewrite decide_False by (intros H; apply H; reflexivity).
    unfold run_statement. rewrite Hclosed. cbn [st logged]. split; [reflexivity|eauto]. }
  destruct (isOpen c) eqn:Hopen; cbn [out st logged].
  - do 5 (split; [reflexivity|]). split.
    + rewrite close_database_run. reflexivity.
    + intros date time a1 a2 a3 a4 a5 summary.
      apply (Hinsert (set_isOpen false (record Close c)) eq_refl).
  - split; [reflexivity|]. split; [exact Hopen|]. split; [reflexivity|].
    split; [symmetry; apply app_nil_r|]. split; [reflexivity|]. split.
    + rewrite close_database_run, Hopen. reflexivity.
    + intros date time a1 a2 a3 a4 a5 summary. apply (Hinsert c Hopen).
Qed.

End ClosingFacts.

(** ** The bootstrap after a failed copy *)

Section BootstrapRetry.
Import database_manager.

(** X17: what a failed copy means for the next start.  When the template
    is there, the target is not, and [shutil.copy] raises,
    [initialize_database] logs the error and returns.  If the copy left a
    partial target behind, every later call finds a target and does
    nothing, whatever the environment then is: the partial file is kept and
    nothing is logged.  If the copy left nothing behind, the files are as
    before, and a later call on a machine where the copy works puts the
    template's content in place. *)
Theorem initialize_database_after_failed_copy (db_path target_db_path : string)
    (h later : host) (e : exn) (residue : option (list Byte.byte))
    (template : list Byte.byte) :
  files h !! target_db_path = None ->
  files h !! db_path = Some template ->
  copy_failure h = Some (e, residue) ->
  files later = files (st (initialize_database db_path target_db_path h)) ->
  let r := initialize_database db_path target_db_path h in
  let r' := initialize_database db_path target_db_path later in
  out r = Returned tt /\
  logged r = [Log ERROR "Error: Unable to create database"] /\
  files (st r) !! target_db_path = residue /\
  match residue with
  | Some part =>
      r' = Run (Returned tt) later [] /\ files (st r') !! target_db_path = Some part
  | None =>
      files (st r) = files h /\
      (copy_failure later = None ->
       logged r' = [] /\ files (st r') !! target_db_path = Some template)
  end.
Proof.
  intros Htarget Htemplate Hcopy Hlater. cbv zeta.
  rewrite (initialize_database_run db_path target_db_path h) in *.
  rewrite Htarget, Htemplate, Hcopy in *.
  destruct residue as [part|]; cbn [out st logged files set_files] in *.
  - split; [reflexivity|]. split; [reflexivity|].
    split; [apply lookup_insert_eq|].
    assert (Hthere : files later !! target_db_path = Some part)
      by (rewrite Hlater; apply lookup_insert_eq).
    rewrite (initialize_database_existing db_path target_db_path later) by eauto.
    split; [reflexivity|exact Hthere].
  - split; [reflexivity|]. split; [reflexivity|]. split; [exact Htarget|].
    split; [reflexivity|]. intros Hworks.
    rewrite (initialize_database_run db_path target_db_path later).
    rewrite Hlater, Htarget, Htemplate, Hworks. cbn [logged st files set_files].
    split; [reflexivity|apply lookup_insert_eq].
Qed.

Lemma initialize_database_after_failed_copy_witness :
  let torn := Host {[ "/opt/altman/altman.db" := [Byte.x53; Byte.x51; Byte.x4c] ]}
                   (Some (OSError "No space left on device", Some [Byte.x53])) true in
  let r := initialize_database "/opt/altman/altman.db" "/home/user/altman.db" torn in
  files torn !! "/home/user/altman.db" = None /\
  initialize_database "/opt/altman/altman.db" "/home/user/altman.db"
    (Host (files (st r)) None true)
  = Run (Returned tt) (Host (files (st r)) None true) [].
Proof.
  cbv zeta. split; [reflexivity|].
  exact (proj1 (proj2 (proj2 (proj2
    (initialize_database_after_failed_copy "/opt/altman/altman.db" "/home/user/altman.db"
       (Host {[ "/opt/altman/altman.db" := [Byte.x53; Byte.x51; Byte.x4c] ]}
             (Some (OSError "No space left on device", Some [Byte.x53])) true)
       (Host (files (st (initialize_database "/opt/altman/altman.db" "/home/user/altman.db"
                 (Host {[ "/opt/altman/altman.db" := [Byte.x53; Byte.x51; Byte.x4c] ]}
                       (Some (OSError "No space left on device", Some [Byte.x53])) true))))
             None true)
       (OSError "No space left on device") (Some [Byte.x53])
       [Byte.x53; Byte.x51; Byte.x4c] eq_refl eq_refl eq_refl eq_refl))))).
Defined.

End BootstrapRetry.

(** ** The summary, whatever the sliders hold *)

Section SummaryBounds.
Import main_window main_window.MainWindow.

Lemma counted_facts (a : Z) : 0 <= counted a /\ a <= counted a /\ (counted a = 0 <-> a <= 0).
Proof. unfold counted. destruct (decide (a > 0)); lia. Qed.

(** X18: whatever values the five sliders hold, also negative ones, the
    summary [update_altmans_summary] computes is never negative and never
    below any single answer, and it is 0 exactly when no answer is above
    0. *)
Theorem update_altmans_summary_is_never_negative (f : form) :
  let summary := altmans_summary (st (update_altmans_summary f)) in
  0 <= summary /\
  Forall (fun a => a <= summary) (answers f) /\
  (summary = 0 <-> Forall (fun a => a <= 0) (answers f)).
Proof.
  cbv zeta. rewrite altmans_summary_after_update.
  unfold answers, sliders. cbn [fmap list_fmap].
  pose proof (counted_facts (value (altman_question f))) as (H1 & H1' & H1'').
  pose proof (counted_facts (value (altman_question_2 f))) as (H2 & H2' & H2'').
  pose proof (counted_facts (value (altman_question_3 f))) as (H3 & H3' & H3'').
  pose proof (counted_facts (value (altman_question_4 f))) as (H4 & H4' & H4'').
  pose proof (counted_facts (value (altman_question_5 f))) as (H5 & H5' & H5'').
  split; [lia|]. split; [repeat constructor; lia|].
  split.
  - intros Hzero. repeat constructor; lia.
  - intros Hall.
    repeat match goal with
           | H : Forall _ (_ :: _) |- _ => apply Forall_cons in H; destruct H as [? H]
           end.
    lia.
Qed.

End SummaryBounds.
